(** * ksniff: the [sniff] command (pkg/cmd/sniff.go)

    A shallow embedding of the capture orchestrator of ksniff and the
    properties of its provisioning and capture steps.

    The command talks to the outside world through a handful of calls:
    the kubeconfig loaders, the Kubernetes API ([Pods(ns).Get]), the two
    operations of package [ksniff/kube] ([PodExecuteCommand] and
    [PodUploadFile]), [os.Create] and the [os/exec] handle of the viewer.
    None of those is defined in sniff.go, so they are taken as an
    environment [Env] of answer functions.  The code itself becomes a
    function in a small state monad whose state is the chronological
    trace of the calls made so far; the environment may answer a call
    according to that history, which is how a remote container that
    remembers an upload is expressed.

    The [log.Info]/[log.Infof] lines of the source write to the logger
    only and take no part in control flow; they are left out. *)

From Stdlib Require Import ZArith Lia.
From stdpp Require Import base strings list gmap pretty.

Local Open Scope string_scope.
Local Open Scope list_scope.
Local Open Scope Z_scope.

(** ** Errors *)

(** A Go [error] value.  [errors.New] and [errors.Errorf] of
    github.com/pkg/errors build a fresh error from a message; [Wrapf]
    on a non-nil cause annotates it; everything else that sniff.go
    hands back was made by a callee outside the file. *)
Inductive error : Type :=
| errors_fundamental (msg : string)
| errors_withMessage (cause : error) (msg : string)
| foreign_error (msg : string).

(** The nil-able [error] of a Go signature. *)
Definition nil_error : option error := None.

Definition errors_New (msg : string) : option error :=
  Some (errors_fundamental msg).

(** [errors.Errorf], applied to the message already formatted. *)
Definition errors_Errorf (msg : string) : option error :=
  Some (errors_fundamental msg).

(** [%d] of [fmt]: decimal, with a leading minus sign. *)
Definition fmt_d (n : Z) : string := pretty n.

(** github.com/pkg/errors, [Wrapf]: "If err is nil, Wrapf returns nil." *)
Definition errors_Wrapf (err : option error) (msg : string) : option error :=
  match err with
  | None => None
  | Some e => Some (errors_withMessage e msg)
  end.

(** ** Data *)

(** rest.Config: the fields the command touches.  [Timeout] is a
    [time.Duration], a count of nanoseconds. *)
Record rest_Config : Type := {
  Host : string;
  Timeout : Z
}.

Definition time_Second : Z := 1000000000.

Definition set_Timeout (c : rest_Config) (d : Z) : rest_Config :=
  {| Host := Host c; Timeout := d |}.

(** kubernetes.Clientset, built by [kubernetes.NewForConfig] from a copy
    of the configuration. *)
Record kubernetes_Clientset : Type := {
  clientConfig : rest_Config
}.

(** api.Context and api.Config of client-go's clientcmd. *)
Record api_Context : Type := {
  Cluster : string;
  AuthInfo : string;
  ContextNamespace : string
}.

Record api_Config : Type := {
  CurrentContext : string;
  Contexts : gmap string api_Context
}.

Definition api_Config_zero : api_Config :=
  {| CurrentContext := ""; Contexts := ∅ |}.

Definition set_ContextNamespace (c : api_Context) (ns : string) : api_Context :=
  {| Cluster := Cluster c; AuthInfo := AuthInfo c; ContextNamespace := ns |}.

(** corev1.Pod: phase and containers.  [PodPhase] is a string type. *)
Definition corev1_PodPhase : Type := string.
Definition corev1_PodSucceeded : corev1_PodPhase := "Succeeded".
Definition corev1_PodFailed : corev1_PodPhase := "Failed".

Record corev1_Container : Type := {
  Name : string
}.

Record corev1_Pod : Type := {
  Phase : corev1_PodPhase;
  Containers : list corev1_Container
}.

(** An [io.Writer] as the command creates them: the two sinks of package
    kube, the output file, and the input pipe of the viewer. *)
Inductive io_Writer : Type :=
| new_kube_Writer
| new_kube_NopWriter
| os_File (path : string)
| stdin_pipe (argv : list string).

(** Modelled from the spec: kube.Writer, declared in package ksniff/kube
    which is not among the sources; "an in-memory capturing sink (used to
    inspect short command output)".  [Output] is what has been written. *)
Record kube_Writer : Type := {
  Output : string
}.

Definition kube_Writer_new : kube_Writer := {| Output := "" |}.

Definition kube_Writer_Write (w : kube_Writer) (p : string) : kube_Writer :=
  {| Output := Output w +:+ p |}.

(** kube.KubeRequest, kube.ExecCommandRequest and kube.UploadFileRequest
    as sniff.go fills them.  The two pointers are nil until [Complete]
    has run. *)
Record kube_KubeRequest : Type := {
  Clientset : option kubernetes_Clientset;
  RestConfig : option rest_Config;
  Namespace : string;
  Pod : string;
  Container : string
}.

Record kube_ExecCommandRequest : Type := {
  ExecKubeRequest : kube_KubeRequest;
  Command : list string;
  StdOut : io_Writer;
  StdErr : io_Writer
}.

Record kube_UploadFileRequest : Type := {
  UploadKubeRequest : kube_KubeRequest;
  Src : string;
  Dst : string
}.

(** What one run of [kube.PodExecuteCommand] amounts to for its caller:
    the two return values, and the bytes it relayed to the two sinks of
    the request. *)
Record ExecOutcome : Type := {
  exitCode : Z;
  execErr : option string;
  toStdOut : string;
  toStdErr : string
}.

(** ** SniffOptions *)

(** The option struct.  [configFlags] only leads to the kubeconfig
    loaders, which are part of the environment below, and the embedded
    [IOStreams] is never read; both are left out. *)
Record SniffOptions : Type := {
  resultingContext : option api_Context;
  userSpecifiedPod : string;
  userSpecifiedFilter : string;
  userSpecifiedContainer : string;
  userSpecifiedNamespace : string;
  userSpecifiedOutputFile : string;
  userSpecifiedLocalTcpdumpPath : string;
  userSpecifiedRemoteTcpdumpPath : string;
  clientset : option kubernetes_Clientset;
  restConfig : option rest_Config;
  rawConfig : api_Config
}.

Definition tcpdumpLocalPath : string := "/tcpdump-static".
Definition tcpdumpRemotePath : string := "/tmp/static-tcpdump".

(** [NewSniffOptions]: every field at its zero value. *)
Definition NewSniffOptions : SniffOptions :=
  {| resultingContext := None;
     userSpecifiedPod := "";
     userSpecifiedFilter := "";
     userSpecifiedContainer := "";
     userSpecifiedNamespace := "";
     userSpecifiedOutputFile := "";
     userSpecifiedLocalTcpdumpPath := "";
     userSpecifiedRemoteTcpdumpPath := "";
     clientset := None;
     restConfig := None;
     rawConfig := api_Config_zero |}.

(** Field assignments [o.f = v]. *)
Definition set_userSpecifiedPod (o : SniffOptions) (v : string) : SniffOptions :=
  {| resultingContext := resultingContext o;
     userSpecifiedPod := v;
     userSpecifiedFilter := userSpecifiedFilter o;
     userSpecifiedContainer := userSpecifiedContainer o;
     userSpecifiedNamespace := userSpecifiedNamespace o;
     userSpecifiedOutputFile := userSpecifiedOutputFile o;
     userSpecifiedLocalTcpdumpPath := userSpecifiedLocalTcpdumpPath o;
     userSpecifiedRemoteTcpdumpPath := userSpecifiedRemoteTcpdumpPath o;
     clientset := clientset o;
     restConfig := restConfig o;
     rawConfig := rawConfig o |}.

Definition set_userSpecifiedContainer (o : SniffOptions) (v : string) : SniffOptions :=
  {| resultingContext := resultingContext o;
     userSpecifiedPod := userSpecifiedPod o;
     userSpecifiedFilter := userSpecifiedFilter o;
     userSpecifiedContainer := v;
     userSpecifiedNamespace := userSpecifiedNamespace o;
     userSpecifiedOutputFile := userSpecifiedOutputFile o;
     userSpecifiedLocalTcpdumpPath := userSpecifiedLocalTcpdumpPath o;
     userSpecifiedRemoteTcpdumpPath := userSpecifiedRemoteTcpdumpPath o;
     clientset := clientset o;
     restConfig := restConfig o;
     rawConfig := rawConfig o |}.

Definition set_rawConfig (o : SniffOptions) (v : api_Config) : SniffOptions :=
  {| resultingContext := resultingContext o;
     userSpecifiedPod := userSpecifiedPod o;
     userSpecifiedFilter := userSpecifiedFilter o;
     userSpecifiedContainer := userSpecifiedContainer o;
     userSpecifiedNamespace := userSpecifiedNamespace o;
     userSpecifiedOutputFile := userSpecifiedOutputFile o;
     userSpecifiedLocalTcpdumpPath := userSpecifiedLocalTcpdumpPath o;
     userSpecifiedRemoteTcpdumpPath := userSpecifiedRemoteTcpdumpPath o;
     clientset := clientset o;
     restConfig := restConfig o;
     rawConfig := v |}.

Definition set_restConfig (o : SniffOptions) (v : option rest_Config) : SniffOptions :=
  {| resultingContext := resultingContext o;
     userSpecifiedPod := userSpecifiedPod o;
     userSpecifiedFilter := userSpecifiedFilter o;
     userSpecifiedContainer := userSpecifiedContainer o;
     userSpecifiedNamespace := userSpecifiedNamespace o;
     userSpecifiedOutputFile := userSpecifiedOutputFile o;
     userSpecifiedLocalTcpdumpPath := userSpecifiedLocalTcpdumpPath o;
     userSpecifiedRemoteTcpdumpPath := userSpecifiedRemoteTcpdumpPath o;
     clientset := clientset o;
     restConfig := v;
     rawConfig := rawConfig o |}.

Definition set_clientset (o : SniffOptions) (v : option kubernetes_Clientset) : SniffOptions :=
  {| resultingContext := resultingContext o;
     userSpecifiedPod := userSpecifiedPod o;
     userSpecifiedFilter := userSpecifiedFilter o;
     userSpecifiedContainer := userSpecifiedContainer o;
     userSpecifiedNamespace := userSpecifiedNamespace o;
     userSpecifiedOutputFile := userSpecifiedOutputFile o;
     userSpecifiedLocalTcpdumpPath := userSpecifiedLocalTcpdumpPath o;
     userSpecifiedRemoteTcpdumpPath := userSpecifiedRemoteTcpdumpPath o;
     clientset := v;
     restConfig := restConfig o;
     rawConfig := rawConfig o |}.

Definition set_resultingContext (o : SniffOptions) (v : option api_Context) : SniffOptions :=
  {| resultingContext := v;
     userSpecifiedPod := userSpecifiedPod o;
     userSpecifiedFilter := userSpecifiedFilter o;
     userSpecifiedContainer := userSpecifiedContainer o;
     userSpecifiedNamespace := userSpecifiedNamespace o;
     userSpecifiedOutputFile := userSpecifiedOutputFile o;
     userSpecifiedLocalTcpdumpPath := userSpecifiedLocalTcpdumpPath o;
     userSpecifiedRemoteTcpdumpPath := userSpecifiedRemoteTcpdumpPath o;
     clientset := clientset o;
     restConfig := restConfig o;
     rawConfig := rawConfig o |}.

(** How a method ends: it returns its [error], or the goroutine panics
    (a nil pointer is dereferenced, a slice is indexed out of range). *)
Inductive completion : Type :=
| Returns (err : option error)
| Panics.

(** ** The trace of calls and the environment *)

Inductive Event : Type :=
| EvUsage
| EvRawConfig
| EvToRESTConfig
| EvNewForConfig (cfg : rest_Config)
| EvPodsGet (cs : kubernetes_Clientset) (ns name : string)
| EvExec (req : kube_ExecCommandRequest)
| EvUpload (req : kube_UploadFileRequest)
| EvCreate (path : string)
| EvStdinPipe (argv : list string)
| EvGo (req : kube_ExecCommandRequest)
| EvCmdRun (argv : list string).

Definition Trace : Type := list Event.

(** The answers of the outside world.  Each function receives the trace
    of the calls that came before.  Results are the Go pairs of value
    and error; an error made by a callee is given by its message, and
    sniff.go sees it as a [foreign_error]. *)
Record Env : Type := {
  RawConfig : Trace -> api_Config * option string;
  ToRESTConfig : Trace -> option rest_Config * option string;
  NewForConfig : Trace -> rest_Config -> option kubernetes_Clientset * option string;
  PodsGet : Trace -> kubernetes_Clientset -> string -> string -> corev1_Pod * option string;
  PodExecuteCommand : Trace -> kube_ExecCommandRequest -> ExecOutcome;
  PodUploadFile : Trace -> kube_UploadFileRequest -> Z * option string;
  os_Create : Trace -> string -> option string;
  StdinPipe : Trace -> list string -> option string;
  cmd_Run : Trace -> list string -> option string
}.

Definition callee (err : option string) : option error :=
  foreign_error <$> err.

(** [x != nil] *)
Definition not_nil {A : Type} (x : option A) : bool :=
  match x with
  | Some _ => true
  | None => false
  end.

(** ** The monad *)

Definition M (A : Type) : Type := Trace -> A * Trace.

Definition ret {A : Type} (a : A) : M A := fun t => (a, t).

Definition bind {A B : Type} (m : M A) (k : A -> M B) : M B :=
  fun t => let '(a, t') := m t in k a t'.

(** One call to the outside: the answer depends on the history, and the
    call is appended to it. *)
Definition call {A : Type} (e : Event) (answer : Trace -> A) : M A :=
  fun t => (answer t, t ++ [e]).

Notation "'do' x <- m ; k" := (bind m (fun x => k))
  (at level 10, x name, m at level 100, k at level 200).
Notation "'do' ' pat <- m ; k" := (bind m (fun x => match x with pat => k end))
  (at level 10, pat pattern, m at level 100, k at level 200).
Notation "'run' m ; k" := (bind m (fun _ => k))
  (at level 10, m at level 100, k at level 200).

(** ** The program *)

Section Sniff.

Variable env : Env.

(** ** Complete and Validate *)

Definition DeepCopy (c : api_Context) : api_Context := c.

Definition Complete (args : list string) (o : SniffOptions)
  : M (SniffOptions * completion) :=
  if (length args <? 1)%nat then
    run call EvUsage (fun _ => tt);
    ret (o, Returns (errors_Errorf
           ("not enough arguments (" +:+ fmt_d (Z.of_nat (length args)) +:+ ")")))
  else
    match args !! 0%nat with
    | None => ret (o, Panics)
    | Some arg0 =>
      let o := set_userSpecifiedPod o arg0 in
      do '(raw, err) <- call EvRawConfig (RawConfig env);
      let o := set_rawConfig o raw in
      let err := callee err in
      if not_nil err then ret (o, Returns err)
      else
        do '(cfg, err) <- call EvToRESTConfig (ToRESTConfig env);
        let o := set_restConfig o cfg in
        let err := callee err in
        if not_nil err then ret (o, Returns err)
        else
          match restConfig o with
          | None => ret (o, Panics)
          | Some cfg =>
            let cfg := set_Timeout cfg (30 * time_Second) in
            let o := set_restConfig o (Some cfg) in
            do '(cs, err) <- call (EvNewForConfig cfg) (fun t => NewForConfig env t cfg);
            let o := set_clientset o cs in
            let err := callee err in
            if not_nil err then ret (o, Returns err)
            else
              match Contexts (rawConfig o) !! CurrentContext (rawConfig o) with
              | None => ret (o, Returns (errors_New "context doesn't exist"))
              | Some currentContext =>
                let o := set_resultingContext o (Some (DeepCopy currentContext)) in
                let o := set_resultingContext o
                           (flip set_ContextNamespace (userSpecifiedNamespace o)
                              <$> resultingContext o) in
                ret (o, Returns nil_error)
              end
          end
    end.

Definition Validate (o : SniffOptions) : M (SniffOptions * completion) :=
  if (String.length (CurrentContext (rawConfig o)) =? 0)%nat then
    ret (o, Returns (errors_New "context doesn't exist"))
  else if String.eqb (userSpecifiedNamespace o) "" then
    ret (o, Returns (errors_New "namespace value is empty should be custom or default"))
  else
    match clientset o with
    | None => ret (o, Panics)
    | Some cs =>
      do '(pod, err) <- call (EvPodsGet cs (userSpecifiedNamespace o) (userSpecifiedPod o))
                             (fun t => PodsGet env t cs (userSpecifiedNamespace o)
                                                        (userSpecifiedPod o));
      let err := callee err in
      if not_nil err then ret (o, Returns err)
      else if String.eqb (Phase pod) corev1_PodSucceeded
              || String.eqb (Phase pod) corev1_PodFailed then
        ret (o, Returns (errors_Errorf
               ("cannot sniff on a container in a completed pod; current phase is "
                +:+ Phase pod)))
      else if (length (Containers pod) <? 1)%nat then
        ret (o, Returns (errors_New "no containers in specified pod"))
      else if String.eqb (userSpecifiedContainer o) "" then
        match Containers pod !! 0%nat with
        | None => ret (o, Panics)
        | Some c => ret (set_userSpecifiedContainer o (Name c), Returns nil_error)
        end
      else ret (o, Returns nil_error)
    end.

(** ** The presence probe *)

Definition kubeRequest (o : SniffOptions) : kube_KubeRequest :=
  {| Clientset := clientset o;
     RestConfig := restConfig o;
     Namespace := userSpecifiedNamespace o;
     Pod := userSpecifiedPod o;
     Container := userSpecifiedContainer o |}.

Definition probeRequest (o : SniffOptions) (tcpdumpRemotePath : string)
  : kube_ExecCommandRequest :=
  {| ExecKubeRequest := kubeRequest o;
     Command := ["/bin/sh"; "-c"; "ls -alt " +:+ tcpdumpRemotePath];
     StdOut := new_kube_Writer;
     StdErr := new_kube_Writer |}.

Definition CheckIfTcpdumpExistOnPod (o : SniffOptions) (tcpdumpRemotePath : string)
  : M (bool * option error) :=
  let stdOut := kube_Writer_new in
  let stdErr := kube_Writer_new in
  let req := probeRequest o tcpdumpRemotePath in
  do r <- call (EvExec req) (fun t => PodExecuteCommand env t req);
  let stdOut := kube_Writer_Write stdOut (toStdOut r) in
  let stdErr := kube_Writer_Write stdErr (toStdErr r) in
  let exitCode := exitCode r in
  let err := callee (execErr r) in
  if not_nil err then ret (false, err)
  else if negb (exitCode =? 0) then ret (false, nil_error)
  else if negb (String.eqb (Output stdErr) "")
       then ret (false, errors_New "failed to check for tcpdump")
       else ret (true, nil_error).

(** ** Provisioning *)

Definition uploadRequest (o : SniffOptions) : kube_UploadFileRequest :=
  {| UploadKubeRequest := kubeRequest o;
     Src := userSpecifiedLocalTcpdumpPath o;
     Dst := userSpecifiedRemoteTcpdumpPath o |}.

Definition UploadTcpdumpIfMissing (o : SniffOptions) : M (option error) :=
  do '(isExist, err) <- CheckIfTcpdumpExistOnPod o (userSpecifiedRemoteTcpdumpPath o);
  if not_nil err then ret err
  else if isExist then ret nil_error
  else
    let req := uploadRequest o in
    do '(exitCode, err) <- call (EvUpload req) (fun t => PodUploadFile env t req);
    let err := callee err in
    if not_nil err || negb (exitCode =? 0)
    then ret (errors_Wrapf err
                 ("upload file command failed, exitCode: " +:+ fmt_d exitCode))
    else ret nil_error.

(** ** The capture *)

Definition captureRequest (o : SniffOptions) (stdOut : io_Writer)
  : kube_ExecCommandRequest :=
  {| ExecKubeRequest := kubeRequest o;
     Command := [userSpecifiedRemoteTcpdumpPath o; "-U"; "-w"; "-"];
     StdErr := new_kube_NopWriter;
     StdOut := stdOut |}.

(** The function has no result: both return values of
    [kube.PodExecuteCommand] are dropped. *)
Definition ExecuteTcpdumpOnRemotePod (o : SniffOptions) (stdOut : io_Writer) : M unit :=
  let executeTcpdumpRequest := captureRequest o stdOut in
  run call (EvExec executeTcpdumpRequest)
           (fun t => PodExecuteCommand env t executeTcpdumpRequest);
  ret tt.

(** [go o.ExecuteTcpdumpOnRemotePod(w)]: the statement starts a goroutine
    and goes on at once.  The goroutine returns nothing and assigns
    nothing that [Run] reads, so the rest of [Run] cannot depend on what
    its [kube.PodExecuteCommand] comes to; the trace records the start
    together with the request the goroutine submits. *)
Definition go_ExecuteTcpdumpOnRemotePod (o : SniffOptions) (stdOut : io_Writer) : M unit :=
  call (EvGo (captureRequest o stdOut)) (fun _ => tt).

Definition exec_Command (name : string) (arg : list string) : list string :=
  name :: arg.

Definition Run (o : SniffOptions) : M (option error) :=
  do err <- UploadTcpdumpIfMissing o;
  if not_nil err then ret err
  else if negb (String.eqb (userSpecifiedOutputFile o) "") then
    do err <- call (EvCreate (userSpecifiedOutputFile o))
               (fun t => os_Create env t (userSpecifiedOutputFile o));
    let f := os_File (userSpecifiedOutputFile o) in
    let err := callee err in
    if not_nil err then ret err
    else
      run ExecuteTcpdumpOnRemotePod o f;
      ret nil_error
  else
    let cmd := exec_Command "wireshark" ["-k"; "-i"; "-"] in
    do err <- call (EvStdinPipe cmd) (fun t => StdinPipe env t cmd);
    let outputWriter := stdin_pipe cmd in
    let err := callee err in
    if not_nil err then ret err
    else
      run go_ExecuteTcpdumpOnRemotePod o outputWriter;
      do err <- call (EvCmdRun cmd) (fun t => cmd_Run env t cmd);
      let err := callee err in
      if not_nil err then ret err
      else ret nil_error.

(** ** The command *)

(** The values of the six flags after parsing, and their defaults. *)
Record Flags : Type := {
  flag_namespace : string;
  flag_container : string;
  flag_filter : string;
  flag_output_file : string;
  flag_local_tcpdump_path : string;
  flag_remote_tcpdump_path : string
}.

Definition defaultFlags : Flags :=
  {| flag_namespace := "default";
     flag_container := "";
     flag_filter := "";
     flag_output_file := "";
     flag_local_tcpdump_path := tcpdumpLocalPath;
     flag_remote_tcpdump_path := tcpdumpRemotePath |}.

(** [NewCmdSniff] binds the flags to the fields of a fresh
    [SniffOptions]. *)
Definition bindFlags (f : Flags) : SniffOptions :=
  {| resultingContext := resultingContext NewSniffOptions;
     userSpecifiedPod := userSpecifiedPod NewSniffOptions;
     userSpecifiedFilter := flag_filter f;
     userSpecifiedContainer := flag_container f;
     userSpecifiedNamespace := flag_namespace f;
     userSpecifiedOutputFile := flag_output_file f;
     userSpecifiedLocalTcpdumpPath := flag_local_tcpdump_path f;
     userSpecifiedRemoteTcpdumpPath := flag_remote_tcpdump_path f;
     clientset := clientset NewSniffOptions;
     restConfig := restConfig NewSniffOptions;
     rawConfig := rawConfig NewSniffOptions |}.

(** The [RunE] closure of the cobra command. *)
Definition RunE (f : Flags) (args : list string) : M completion :=
  let o := bindFlags f in
  do '(o, c) <- Complete args o;
  match c with
  | Panics => ret Panics
  | Returns (Some err) => ret (Returns (Some err))
  | Returns None =>
    do '(o, c) <- Validate o;
    match c with
    | Panics => ret Panics
    | Returns (Some err) => ret (Returns (Some err))
    | Returns None =>
      do err <- Run o;
      if not_nil err then ret (Returns err)
      else ret (Returns nil_error)
    end
  end.

End Sniff.

(** ** Reading a trace *)

Definition is_upload (e : Event) : bool :=
  match e with
  | EvUpload _ => true
  | _ => false
  end.

(** Number of calls to [kube.PodUploadFile]. *)
Definition uploads (t : Trace) : nat := length (List.filter is_upload t).

(** The calls that open a remote command channel to the container: an
    exec (in this goroutine or a new one) and an upload. *)
Definition opens_channel (e : Event) : bool :=
  match e with
  | EvExec _ | EvUpload _ | EvGo _ => true
  | _ => false
  end.

Definition channels (t : Trace) : list Event := List.filter opens_channel t.

(** The probe's answer "absent" and "present". *)
Definition reports_absent (r : bool * option error) : bool :=
  negb r.1 && negb (not_nil r.2).

Definition reports_present (r : bool * option error) : bool :=
  r.1 && negb (not_nil r.2).

(** ** Sample environments *)

Definition sampleConfig : rest_Config := {| Host := "https://10.0.0.1:6443"; Timeout := 0 |}.

Definition sampleContext : api_Context :=
  {| Cluster := "minikube"; AuthInfo := "minikube"; ContextNamespace := "" |}.

Definition sampleRawConfig : api_Config :=
  {| CurrentContext := "minikube"; Contexts := {[ "minikube" := sampleContext ]} |}.

Definition samplePod : corev1_Pod :=
  {| Phase := "Running";
     Containers := [ {| Name := "hello-minikube" |}; {| Name := "istio-proxy" |} ] |}.

Definition silent (code : Z) : ExecOutcome :=
  {| exitCode := code; execErr := None; toStdOut := ""; toStdErr := "" |}.

(** Whether a request is the presence probe (rather than the capture). *)
Definition is_probe (req : kube_ExecCommandRequest) : bool :=
  match Command req with
  | sh :: _ => String.eqb sh "/bin/sh"
  | [] => false
  end.

(** A cluster where everything works; [probe] and [capture] answer the
    two kinds of exec, [upload] the upload, [viewer] the viewer's run. *)
Definition clusterEnv
    (probe capture : Trace -> kube_ExecCommandRequest -> ExecOutcome)
    (upload : Trace -> kube_UploadFileRequest -> Z * option string)
    (viewer : option string) : Env :=
  {| RawConfig := fun _ => (sampleRawConfig, None);
     ToRESTConfig := fun _ => (Some sampleConfig, None);
     NewForConfig := fun _ cfg => (Some {| clientConfig := cfg |}, None);
     PodsGet := fun _ _ _ _ => (samplePod, None);
     PodExecuteCommand := fun t req =>
       if is_probe req then probe t req else capture t req;
     PodUploadFile := upload;
     os_Create := fun _ _ => None;
     StdinPipe := fun _ _ => None;
     cmd_Run := fun _ _ => viewer |}.

(** A container that keeps what was uploaded: the probe finds the binary
    once an upload to the probed path is in the history. *)
Definition keepingProbe (t : Trace) (req : kube_ExecCommandRequest) : ExecOutcome :=
  match Command req with
  | [_; _; line] =>
      if existsb (fun e => match e with
                           | EvUpload up => String.eqb ("ls -alt " +:+ Dst up) line
                           | _ => false
                           end) t
      then {| exitCode := 0; execErr := None;
              toStdOut := "-rwxr-xr-x 1 root root 2846896 static-tcpdump"; toStdErr := "" |}
      else {| exitCode := 2; execErr := None; toStdOut := "";
              toStdErr := "ls: No such file or directory" |}
  | _ => silent 127
  end.

Definition keepingEnv : Env :=
  clusterEnv keepingProbe (fun _ _ => silent 0) (fun _ _ => (0, None)) None.

(** The argvs submitted for remote execution, in order. *)
Definition exec_argvs (t : Trace) : list (list string) :=
  omap (fun e => match e with
                 | EvExec req | EvGo req => Some (Command req)
                 | _ => None
                 end) t.

(** The options for pod "web-1" of the sample cluster as [Complete] and
    [Validate] leave them. *)
Definition webOptions (f : Flags) : SniffOptions :=
  let cfg := set_Timeout sampleConfig (30 * time_Second) in
  {| resultingContext := Some (set_ContextNamespace sampleContext (flag_namespace f));
     userSpecifiedPod := "web-1";
     userSpecifiedFilter := flag_filter f;
     userSpecifiedContainer :=
       if String.eqb (flag_container f) "" then "hello-minikube" else flag_container f;
     userSpecifiedNamespace := flag_namespace f;
     userSpecifiedOutputFile := flag_output_file f;
     userSpecifiedLocalTcpdumpPath := flag_local_tcpdump_path f;
     userSpecifiedRemoteTcpdumpPath := flag_remote_tcpdump_path f;
     clientset := Some {| clientConfig := cfg |};
     restConfig := Some cfg;
     rawConfig := sampleRawConfig |}.

(** [kubectl sniff web-1 -f "port 80" -o out.pcap] *)
Definition filterFlags : Flags :=
  {| flag_namespace := "default"; flag_container := "";
     flag_filter := "port 80"; flag_output_file := "out.pcap";
     flag_local_tcpdump_path := tcpdumpLocalPath;
     flag_remote_tcpdump_path := tcpdumpRemotePath |}.

(** [kubectl sniff web-1 -o out.pcap] *)
Definition fileFlags : Flags :=
  {| flag_namespace := "default"; flag_container := "";
     flag_filter := ""; flag_output_file := "out.pcap";
     flag_local_tcpdump_path := tcpdumpLocalPath;
     flag_remote_tcpdump_path := tcpdumpRemotePath |}.

(** [kubectl sniff web-1 -c sidecar] *)
Definition sidecarFlags : Flags :=
  {| flag_namespace := "default"; flag_container := "sidecar";
     flag_filter := ""; flag_output_file := "";
     flag_local_tcpdump_path := tcpdumpLocalPath;
     flag_remote_tcpdump_path := tcpdumpRemotePath |}.

Definition found : ExecOutcome :=
  {| exitCode := 0; execErr := None;
     toStdOut := "-rwxr-xr-x 1 root root 2846896 /tmp/static-tcpdump"; toStdErr := "" |}.

(** The binary is missing and the receiving command of the upload exits
    with status 1, the channel itself reporting nothing. *)
Definition rejectingEnv : Env :=
  clusterEnv (fun _ _ => silent 2) (fun _ _ => silent 0) (fun _ _ => (1, None)) None.

(** The listing exits with status 0 but prints a warning. *)
Definition warningEnv : Env :=
  clusterEnv (fun _ _ => {| exitCode := 0; execErr := None;
                            toStdOut := "-rwxr-xr-x 1 root root 2846896 /tmp/static-tcpdump";
                            toStdErr := "ls: warning: unsupported locale" |})
             (fun _ _ => silent 0) (fun _ _ => (0, None)) None.

(** The binary is there; the capture command of the default remote path
    ends as [r], any other command quietly. *)
Definition capturing (r : ExecOutcome) : Trace -> kube_ExecCommandRequest -> ExecOutcome :=
  fun _ req =>
    if bool_decide (Command req = [tcpdumpRemotePath; "-U"; "-w"; "-"]) then r else silent 0.

Definition interrupted : ExecOutcome :=
  {| exitCode := 1; execErr := Some "error dialing backend: EOF";
     toStdOut := ""; toStdErr := "" |}.

Definition brokenCaptureEnv : Env :=
  clusterEnv (fun _ _ => found) (capturing interrupted) (fun _ _ => (0, None)) None.

Definition cleanCaptureEnv : Env :=
  clusterEnv (fun _ _ => found) (capturing (silent 0)) (fun _ _ => (0, None)) None.

(** The channel to the container cannot be opened. *)
Definition unreachableEnv : Env :=
  clusterEnv (fun _ _ => {| exitCode := 0; execErr := Some "unable to upgrade connection";
                            toStdOut := ""; toStdErr := "" |})
             (fun _ _ => silent 0) (fun _ _ => (0, None)) None.

(** The pod lookup fails; the pod has completed; the pod is empty. *)
Definition withPod (answer : corev1_Pod * option string) : Env :=
  {| RawConfig := RawConfig keepingEnv;
     ToRESTConfig := ToRESTConfig keepingEnv;
     NewForConfig := NewForConfig keepingEnv;
     PodsGet := fun _ _ _ _ => answer;
     PodExecuteCommand := PodExecuteCommand keepingEnv;
     PodUploadFile := PodUploadFile keepingEnv;
     os_Create := os_Create keepingEnv;
     StdinPipe := StdinPipe keepingEnv;
     cmd_Run := cmd_Run keepingEnv |}.

Definition noPod : corev1_Pod := {| Phase := ""; Containers := [] |}.
Definition donePod : corev1_Pod :=
  {| Phase := corev1_PodSucceeded; Containers := [ {| Name := "job" |} ] |}.
Definition emptyPod : corev1_Pod := {| Phase := "Pending"; Containers := [] |}.



(** The binary is missing and the upload's channel breaks. *)
Definition brokenUploadEnv : Env :=
  clusterEnv (fun _ _ => silent 2) (fun _ _ => silent 0)
             (fun _ _ => (1, Some "command terminated with exit code 1")) None.

(** [kubectl sniff web-1 -n ""] *)
Definition noNamespaceFlags : Flags :=
  {| flag_namespace := ""; flag_container := "";
     flag_filter := ""; flag_output_file := "";
     flag_local_tcpdump_path := tcpdumpLocalPath;
     flag_remote_tcpdump_path := tcpdumpRemotePath |}.

(** ** Vocabulary of the statements *)

(** The verdict the probe reads off the outcome of its remote command. *)
Definition verdict (r : ExecOutcome) : bool * option error :=
  match execErr r with
  | Some msg => (false, Some (foreign_error msg))
  | None =>
      if exitCode r =? 0
      then if String.eqb (toStdErr r) ""
           then (true, nil_error)
           else (false, errors_New "failed to check for tcpdump")
      else (false, nil_error)
  end.

Definition upload_message (code : Z) : string :=
  "upload file command failed, exitCode: " +:+ fmt_d code.

Definition viewer : list string := exec_Command "wireshark" ["-k"; "-i"; "-"].

(** Two environments that answer every call alike, except perhaps the
    exec of the capture command of [o]. *)
Definition same_but_capture (o : SniffOptions) (e1 e2 : Env) : Prop :=
  (forall t req,
     Command req <> [userSpecifiedRemoteTcpdumpPath o; "-U"; "-w"; "-"] ->
     PodExecuteCommand e1 t req = PodExecuteCommand e2 t req) /\
  (forall t req, PodUploadFile e1 t req = PodUploadFile e2 t req) /\
  (forall t path, os_Create e1 t path = os_Create e2 t path) /\
  (forall t argv, StdinPipe e1 t argv = StdinPipe e2 t argv) /\
  (forall t argv, cmd_Run e1 t argv = cmd_Run e2 t argv).

Definition terminal (ph : corev1_PodPhase) : Prop :=
  ph = corev1_PodSucceeded \/ ph = corev1_PodFailed.

Definition completed_pod_message (ph : corev1_PodPhase) : string :=
  "cannot sniff on a container in a completed pod; current phase is " +:+ ph.

(** What [Validate] returns once the pod lookup has answered. *)
Definition checked (o : SniffOptions) (pod : corev1_Pod) (err : option string)
  : SniffOptions * completion :=
  match err with
  | Some msg => (o, Returns (Some (foreign_error msg)))
  | None =>
      if String.eqb (Phase pod) corev1_PodSucceeded || String.eqb (Phase pod) corev1_PodFailed
      then (o, Returns (Some (errors_fundamental (completed_pod_message (Phase pod)))))
      else
        match Containers pod with
        | [] => (o, Returns (Some (errors_fundamental "no containers in specified pod")))
        | c :: _ =>
            if String.eqb (userSpecifiedContainer o) ""
            then (set_userSpecifiedContainer o (Name c), Returns nil_error)
            else (o, Returns nil_error)
        end
  end.

(** The remote operation an event addresses, if it opens a channel. *)
Definition target_of (e : Event) : option kube_KubeRequest :=
  match e with
  | EvExec req | EvGo req => Some (ExecKubeRequest req)
  | EvUpload req => Some (UploadKubeRequest req)
  | _ => None
  end.

(** The calls of [Run] after provisioning: the sink, then the capture,
    and in viewer mode the viewer's run. *)
Definition sink_and_capture (o : SniffOptions) : Trace :=
  if String.eqb (userSpecifiedOutputFile o) ""
  then [EvStdinPipe viewer; EvGo (captureRequest o (stdin_pipe viewer)); EvCmdRun viewer]
  else [EvCreate (userSpecifiedOutputFile o);
        EvExec (captureRequest o (os_File (userSpecifiedOutputFile o)))].

(** The capture has been started, in this goroutine or a new one. *)
Definition capture_launched (o : SniffOptions) (new : Trace) : Prop :=
  exists w, In (EvExec (captureRequest o w)) new \/ In (EvGo (captureRequest o w)) new.

(** The answer of [os.Create] or of [StdinPipe], whichever the mode asks
    for, at history [t]. *)
Definition sink_error (env : Env) (o : SniffOptions) (t : Trace) : option error :=
  if String.eqb (userSpecifiedOutputFile o) ""
  then callee (StdinPipe env t viewer)
  else callee (os_Create env t (userSpecifiedOutputFile o)).

(** The loaders keep the Go convention: with a nil error comes a non-nil
    pointer. *)
Definition loaders_return_values (env : Env) : Prop :=
  (forall t, (ToRESTConfig env t).2 = None -> (ToRESTConfig env t).1 <> None) /\
  (forall t cfg, (NewForConfig env t cfg).2 = None -> (NewForConfig env t cfg).1 <> None).

(** * Properties *)

Section Properties.

Context (env : Env).

(** ** The presence probe *)

(** The probe as one equation: a single exec of [probeRequest], and the
    verdict on its outcome. *)
Lemma CheckIfTcpdumpExistOnPod_eq (o : SniffOptions) (p : string) (t : Trace) :
  CheckIfTcpdumpExistOnPod env o p t =
  (verdict (PodExecuteCommand env t (probeRequest o p)),
   t ++ [EvExec (probeRequest o p)]).
Proof.
  unfold CheckIfTcpdumpExistOnPod, verdict, bind, call, ret; cbn.
  destruct (PodExecuteCommand env t (probeRequest o p)) as [code err out errout]; cbn.
  destruct err as [msg|]; cbn; [reflexivity|].
  destruct (code =? 0); cbn; [|reflexivity].
  change ("" +:+ errout) with errout.
  destruct (String.eqb errout ""); reflexivity.
Qed.

(** C7. The presence probe classifies the outcome of its remote command:
    exit status 0 with nothing on the error stream is "present"
    ([true], no error); a non-zero exit status is "absent" ([false], no
    error); a zero exit status with output on the error stream is a
    failed probe, returned as an error and so different from "absent";
    and an error of the channel itself is returned as an error. *)
Theorem CheckIfTcpdumpExistOnPod_classifies
    (o : SniffOptions) (p : string) (t : Trace) (r : ExecOutcome) :
  PodExecuteCommand env t (probeRequest o p) = r ->
  (execErr r = None -> exitCode r = 0 -> toStdErr r = "" ->
     (CheckIfTcpdumpExistOnPod env o p t).1 = (true, nil_error)) /\
  (execErr r = None -> exitCode r <> 0 ->
     (CheckIfTcpdumpExistOnPod env o p t).1 = (false, nil_error)) /\
  (execErr r = None -> exitCode r = 0 -> toStdErr r <> "" ->
     (CheckIfTcpdumpExistOnPod env o p t).1
       = (false, Some (errors_fundamental "failed to check for tcpdump")) /\
     (CheckIfTcpdumpExistOnPod env o p t).1 <> (false, nil_error)) /\
  (forall msg, execErr r = Some msg ->
     (CheckIfTcpdumpExistOnPod env o p t).1 = (false, Some (foreign_error msg))).
Proof.
  intros Hr. rewrite CheckIfTcpdumpExistOnPod_eq, Hr. cbn [fst]. unfold verdict.
  split; [|split; [|split]].
  - intros -> -> ->. reflexivity.
  - intros -> Hc. apply Z.eqb_neq in Hc. rewrite Hc. reflexivity.
  - intros -> -> Hs. apply String.eqb_neq in Hs. rewrite Hs.
    split; [reflexivity | discriminate].
  - intros msg ->. reflexivity.
Qed.

(** C10. The remote argv of the presence probe is ["/bin/sh"; "-c"; s]
    where s is "ls -alt " followed by the remote path exactly as
    configured, with no quoting or escaping; this is the one request the
    probe submits, and provisioning probes with the configured remote
    path. *)
Theorem probe_argv_interpolates_path (o : SniffOptions) (p : string) (t : Trace) :
  Command (probeRequest o p) = ["/bin/sh"; "-c"; "ls -alt " +:+ p] /\
  (CheckIfTcpdumpExistOnPod env o p t).2 = t ++ [EvExec (probeRequest o p)] /\
  (exists t', (UploadTcpdumpIfMissing env o t).2
     = t ++ EvExec (probeRequest o (userSpecifiedRemoteTcpdumpPath o)) :: t').
Proof.
  split; [reflexivity|]. split.
  - rewrite CheckIfTcpdumpExistOnPod_eq. reflexivity.
  - unfold UploadTcpdumpIfMissing, bind.
    rewrite CheckIfTcpdumpExistOnPod_eq.
    destruct (verdict _) as [isExist err].
    destruct (not_nil err); [exists []; reflexivity|].
    destruct isExist; [exists []; reflexivity|].
    unfold call, ret. destruct (PodUploadFile _ _ _) as [code uerr].
    eexists [_]. rewrite <- app_assoc.
    destruct (_ || _); reflexivity.
Qed.

(** ** Provisioning *)

(** [UploadTcpdumpIfMissing] as one equation over the probe's verdict. *)
Lemma UploadTcpdumpIfMissing_eq (o : SniffOptions) (t : Trace) :
  UploadTcpdumpIfMissing env o t =
  let probe := probeRequest o (userSpecifiedRemoteTcpdumpPath o) in
  let t1 := t ++ [EvExec probe] in
  let v := verdict (PodExecuteCommand env t probe) in
  match v.2 with
  | Some e => (Some e, t1)
  | None =>
      if v.1 then (nil_error, t1)
      else
        let r := PodUploadFile env t1 (uploadRequest o) in
        (if not_nil (callee r.2) || negb (r.1 =? 0)
         then errors_Wrapf (callee r.2) (upload_message r.1)
         else nil_error,
         t1 ++ [EvUpload (uploadRequest o)])
  end.
Proof.
  unfold UploadTcpdumpIfMissing, bind. rewrite CheckIfTcpdumpExistOnPod_eq.
  destruct (verdict _) as [isExist [e|]]; cbn; [reflexivity|].
  destruct isExist; cbn; [reflexivity|].
  unfold call, ret. destruct (PodUploadFile _ _ _) as [code uerr]; cbn.
  destruct (_ || _); reflexivity.
Qed.

Lemma uploads_app (t1 t2 : Trace) : uploads (t1 ++ t2) = (uploads t1 + uploads t2)%nat.
Proof. unfold uploads. rewrite List.filter_app, length_app. reflexivity. Qed.

Lemma channels_app (t1 t2 : Trace) : channels (t1 ++ t2) = channels t1 ++ channels t2.
Proof. unfold channels. apply List.filter_app. Qed.

Ltac count_uploads := rewrite ?uploads_app; unfold uploads; cbn; lia.

(** An upload that comes back with an error is fatal. *)
Lemma UploadTcpdumpIfMissing_upload_error (o : SniffOptions) (t : Trace) (code : Z) (msg : string) :
  reports_absent (CheckIfTcpdumpExistOnPod env o (userSpecifiedRemoteTcpdumpPath o) t).1 = true ->
  PodUploadFile env (t ++ [EvExec (probeRequest o (userSpecifiedRemoteTcpdumpPath o))])
                (uploadRequest o) = (code, Some msg) ->
  (UploadTcpdumpIfMissing env o t).1
    = Some (errors_withMessage (foreign_error msg) (upload_message code)).
Proof.
  rewrite CheckIfTcpdumpExistOnPod_eq, UploadTcpdumpIfMissing_eq. cbn.
  destruct (verdict _) as [[|] [e|]]; cbn; try discriminate.
  intros _ ->. reflexivity.
Qed.

(** An upload that comes back with a non-zero exit status and no error
    is not: [Wrapf] of a nil error is nil. *)
Lemma UploadTcpdumpIfMissing_exit_status_lost (o : SniffOptions) (t : Trace) (code : Z) :
  reports_absent (CheckIfTcpdumpExistOnPod env o (userSpecifiedRemoteTcpdumpPath o) t).1 = true ->
  PodUploadFile env (t ++ [EvExec (probeRequest o (userSpecifiedRemoteTcpdumpPath o))])
                (uploadRequest o) = (code, None) ->
  (UploadTcpdumpIfMissing env o t).1 = nil_error.
Proof.
  rewrite CheckIfTcpdumpExistOnPod_eq, UploadTcpdumpIfMissing_eq. cbn.
  destruct (verdict _) as [[|] [e|]]; cbn; try discriminate.
  intros _ ->. cbn. destruct (negb _); reflexivity.
Qed.

(** C4 (as the code has it). When the presence probe is inconclusive
    (zero exit status, no channel error, output on the error stream),
    provisioning stops with the probe's error: the probe is the only
    call made, no upload is invoked, and [Run] returns that error
    without launching the capture. *)
Theorem probe_error_aborts_without_upload (o : SniffOptions) (t : Trace) (r : ExecOutcome) :
  PodExecuteCommand env t (probeRequest o (userSpecifiedRemoteTcpdumpPath o)) = r ->
  execErr r = None -> exitCode r = 0 -> toStdErr r <> "" ->
  UploadTcpdumpIfMissing env o t
    = (Some (errors_fundamental "failed to check for tcpdump"),
       t ++ [EvExec (probeRequest o (userSpecifiedRemoteTcpdumpPath o))]) /\
  Run env o t
    = (Some (errors_fundamental "failed to check for tcpdump"),
       t ++ [EvExec (probeRequest o (userSpecifiedRemoteTcpdumpPath o))]) /\
  uploads (Run env o t).2 = uploads t.
Proof.
  intros Hr He Hc Hs.
  assert (Hup : UploadTcpdumpIfMissing env o t
    = (Some (errors_fundamental "failed to check for tcpdump"),
       t ++ [EvExec (probeRequest o (userSpecifiedRemoteTcpdumpPath o))])).
  { rewrite UploadTcpdumpIfMissing_eq. cbn. rewrite Hr. unfold verdict.
    rewrite He, Hc. apply String.eqb_neq in Hs. rewrite Hs. reflexivity. }
  assert (Hrun : Run env o t
    = (Some (errors_fundamental "failed to check for tcpdump"),
       t ++ [EvExec (probeRequest o (userSpecifiedRemoteTcpdumpPath o))])).
  { unfold Run, bind. rewrite Hup. reflexivity. }
  split; [exact Hup|]. split; [exact Hrun|].
  rewrite Hrun. cbn [snd]. count_uploads.
Qed.

(** [Run] uploads exactly when provisioning does. *)
Lemma Run_uploads (o : SniffOptions) (t : Trace) :
  uploads (Run env o t).2 = uploads (UploadTcpdumpIfMissing env o t).2.
Proof.
  unfold Run, bind. destruct (UploadTcpdumpIfMissing env o t) as [err t1]. cbn [snd].
  destruct (not_nil err); [reflexivity|].
  destruct (negb _); unfold call, ret; cbn -[uploads].
  - destruct (not_nil _); cbn -[uploads]; count_uploads.
  - destruct (not_nil (callee (StdinPipe _ _ _))); cbn -[uploads].
    + count_uploads.
    + destruct (not_nil _); cbn -[uploads]; count_uploads.
Qed.

(** C8. Provisioning calls the uploader exactly when the probe reports
    the binary absent (once, then); when the probe reports it present
    the probe is the only call; hence of two invocations in sequence
    the second, whose probe finds the binary present, uploads nothing,
    and the two together upload at most once. *)
Theorem provisioning_uploads_iff_absent (o1 o2 : SniffOptions) (t : Trace) :
  uploads (UploadTcpdumpIfMissing env o1 t).2
    = (uploads t +
       (if reports_absent
             (CheckIfTcpdumpExistOnPod env o1 (userSpecifiedRemoteTcpdumpPath o1) t).1
        then 1 else 0))%nat /\
  (reports_present
     (CheckIfTcpdumpExistOnPod env o1 (userSpecifiedRemoteTcpdumpPath o1) t).1 = true ->
   UploadTcpdumpIfMissing env o1 t
     = (nil_error, t ++ [EvExec (probeRequest o1 (userSpecifiedRemoteTcpdumpPath o1))])) /\
  (reports_present
     (CheckIfTcpdumpExistOnPod env o2 (userSpecifiedRemoteTcpdumpPath o2)
        (Run env o1 t).2).1 = true ->
   uploads (Run env o2 (Run env o1 t).2).2 = uploads (Run env o1 t).2 /\
   (uploads (Run env o2 (Run env o1 t).2).2 <= uploads t + 1)%nat).
Proof.
  assert (Hcount : forall o t0,
    uploads (UploadTcpdumpIfMissing env o t0).2
    = (uploads t0 +
       (if reports_absent
             (CheckIfTcpdumpExistOnPod env o (userSpecifiedRemoteTcpdumpPath o) t0).1
        then 1 else 0))%nat).
  { intros o t0. rewrite CheckIfTcpdumpExistOnPod_eq, UploadTcpdumpIfMissing_eq. cbn.
    destruct (verdict _) as [[|] [e|]]; cbn -[uploads]; count_uploads. }
  split; [apply Hcount|]. split.
  - rewrite CheckIfTcpdumpExistOnPod_eq, UploadTcpdumpIfMissing_eq. cbn.
    destruct (verdict _) as [[|] [e|]]; cbn; try discriminate. reflexivity.
  - intros Hpresent.
    assert (H2 : uploads (Run env o2 (Run env o1 t).2).2 = uploads (Run env o1 t).2).
    { rewrite Run_uploads, Hcount.
      destruct (CheckIfTcpdumpExistOnPod env o2 _ _).1 as [[|] [e|]];
        cbn in *; try discriminate; lia. }
    split; [exact H2|].
    rewrite H2, Run_uploads, Hcount. destruct (reports_absent _); lia.
Qed.

(** ** The capture *)

(** C3 (as the code has it). With an output file, [Run] performs the
    capture itself, before it returns, and its result does not reflect
    how the capture went: once provisioning has succeeded
    and the file has been created, [Run] returns nil whatever the exit
    status and error of the remote capture command. *)
Theorem Run_file_mode_returns_nil (o : SniffOptions) (t t1 : Trace) (r : ExecOutcome) :
  userSpecifiedOutputFile o <> "" ->
  UploadTcpdumpIfMissing env o t = (nil_error, t1) ->
  os_Create env t1 (userSpecifiedOutputFile o) = None ->
  PodExecuteCommand env (t1 ++ [EvCreate (userSpecifiedOutputFile o)])
    (captureRequest o (os_File (userSpecifiedOutputFile o))) = r ->
  Run env o t
    = (nil_error,
       t1 ++ [EvCreate (userSpecifiedOutputFile o);
              EvExec (captureRequest o (os_File (userSpecifiedOutputFile o)))]).
Proof.
  intros Hfile Hprov Hcreate _. unfold Run, bind. rewrite Hprov. cbn.
  apply String.eqb_neq in Hfile. rewrite Hfile. cbn.
  unfold call, ret. rewrite Hcreate. cbn. rewrite <- app_assoc. reflexivity.
Qed.

Lemma probe_is_not_capture (o : SniffOptions) (p : string) :
  Command (probeRequest o p) <> [userSpecifiedRemoteTcpdumpPath o; "-U"; "-w"; "-"].
Proof. discriminate. Qed.

Lemma UploadTcpdumpIfMissing_same_but_capture (o : SniffOptions) (env' : Env) (t : Trace) :
  same_but_capture o env env' ->
  UploadTcpdumpIfMissing env' o t = UploadTcpdumpIfMissing env o t.
Proof.
  intros (Hexec & Hup & _).
  unfold UploadTcpdumpIfMissing, CheckIfTcpdumpExistOnPod, bind, call.
  rewrite <- (Hexec t _ (probe_is_not_capture o _)).
  destruct (PodExecuteCommand env t _) as [code [msg|] out errout]; cbn; [reflexivity|].
  destruct (code =? 0); cbn; [|rewrite <- Hup; reflexivity].
  destruct (negb _); reflexivity.
Qed.

(** C9. Without an output file, once provisioning has succeeded and the
    viewer's input pipe exists, [Run] starts the relay in a goroutine of
    its own and returns what the viewer's run returns; the outcome of
    the relay is not part of the result: an environment that differs
    only in how the capture exec ends gives the same result. *)
Theorem Run_viewer_mode_result (o : SniffOptions) (t t1 : Trace) :
  userSpecifiedOutputFile o = "" ->
  UploadTcpdumpIfMissing env o t = (nil_error, t1) ->
  StdinPipe env t1 viewer = None ->
  Run env o t
    = (callee (cmd_Run env (t1 ++ [EvStdinPipe viewer;
                                   EvGo (captureRequest o (stdin_pipe viewer))]) viewer),
       t1 ++ [EvStdinPipe viewer;
              EvGo (captureRequest o (stdin_pipe viewer));
              EvCmdRun viewer]) /\
  (forall env', same_but_capture o env env' -> Run env' o t = Run env o t).
Proof.
  intros Hfile Hprov Hpipe. split.
  - unfold Run, bind. rewrite Hprov, Hfile. cbn.
    unfold call, ret. fold viewer. rewrite Hpipe. cbn.
    rewrite <- !app_assoc. cbn.
    destruct (cmd_Run env _ viewer); reflexivity.
  - intros env' Hsame. unfold Run, bind.
    rewrite (UploadTcpdumpIfMissing_same_but_capture o env' t Hsame), Hprov, Hfile.
    destruct Hsame as (_ & _ & _ & Hp & Hv). cbn. unfold call, ret.
    rewrite <- Hp. destruct (not_nil _); [reflexivity|]. cbn. rewrite <- Hv. reflexivity.
Qed.

(** ** Validation *)

Lemma terminal_test (ph : corev1_PodPhase) :
  String.eqb ph corev1_PodSucceeded || String.eqb ph corev1_PodFailed = true <-> terminal ph.
Proof.
  unfold terminal. rewrite orb_true_iff, !String.eqb_eq. reflexivity.
Qed.

Lemma length_zero_test (s : string) : (String.length s =? 0)%nat = false <-> s <> "".
Proof. destruct s; cbn; split; congruence. Qed.

Lemma Validate_eq (o : SniffOptions) (t : Trace) (cs : kubernetes_Clientset)
    (pod : corev1_Pod) (err : option string) :
  CurrentContext (rawConfig o) <> "" ->
  userSpecifiedNamespace o <> "" ->
  clientset o = Some cs ->
  PodsGet env t cs (userSpecifiedNamespace o) (userSpecifiedPod o) = (pod, err) ->
  Validate env o t
    = (checked o pod err,
       t ++ [EvPodsGet cs (userSpecifiedNamespace o) (userSpecifiedPod o)]).
Proof.
  intros Hctx Hns Hcs Hget.
  apply length_zero_test in Hctx. apply String.eqb_neq in Hns.
  unfold Validate, checked. rewrite Hctx, Hns, Hcs. unfold bind, call. rewrite Hget.
  destruct err as [msg|]; cbn; [reflexivity|].
  destruct (_ || _); cbn; [reflexivity|].
  destruct (Containers pod) as [|c rest]; cbn; [reflexivity|].
  destruct (String.eqb (userSpecifiedContainer o) ""); reflexivity.
Qed.

(** C6 (as the code has it). [Validate] makes one call, the lookup of
    the pod, and opens no remote command channel.  It fails with the
    lookup's error when the pod cannot be fetched, with an error naming
    the phase when the pod is in a terminal phase, and with a third
    error when the pod has no containers; the three differ.  When no
    container is named the pod's first container is selected; a
    container that is named is kept as given, without being looked up
    among the pod's containers. *)
Theorem Validate_fails_fast
    (o : SniffOptions) (t : Trace) (cs : kubernetes_Clientset)
    (pod : corev1_Pod) (err : option string) :
  CurrentContext (rawConfig o) <> "" ->
  userSpecifiedNamespace o <> "" ->
  clientset o = Some cs ->
  PodsGet env t cs (userSpecifiedNamespace o) (userSpecifiedPod o) = (pod, err) ->
  ((Validate env o t).2
     = t ++ [EvPodsGet cs (userSpecifiedNamespace o) (userSpecifiedPod o)] /\
   channels (Validate env o t).2 = channels t) /\
  (forall msg, err = Some msg ->
     (Validate env o t).1 = (o, Returns (Some (foreign_error msg)))) /\
  (err = None -> terminal (Phase pod) ->
     (Validate env o t).1
       = (o, Returns (Some (errors_fundamental (completed_pod_message (Phase pod)))))) /\
  (err = None -> ~ terminal (Phase pod) -> Containers pod = [] ->
     (Validate env o t).1
       = (o, Returns (Some (errors_fundamental "no containers in specified pod")))) /\
  (forall c rest, err = None -> ~ terminal (Phase pod) -> Containers pod = c :: rest ->
     (userSpecifiedContainer o = "" ->
        (Validate env o t).1 = (set_userSpecifiedContainer o (Name c), Returns nil_error)) /\
     (userSpecifiedContainer o <> "" ->
        (Validate env o t).1 = (o, Returns nil_error))) /\
  (forall msg ph,
     foreign_error msg <> errors_fundamental (completed_pod_message ph) /\
     foreign_error msg <> errors_fundamental "no containers in specified pod" /\
     errors_fundamental (completed_pod_message ph)
       <> errors_fundamental "no containers in specified pod").
Proof.
  intros Hctx Hns Hcs Hget.
  rewrite (Validate_eq o t cs pod err Hctx Hns Hcs Hget). cbn [fst snd].
  split; [|split; [|split; [|split; [|split]]]].
  - split; [reflexivity|]. rewrite channels_app. cbn. apply app_nil_r.
  - intros msg ->. reflexivity.
  - intros -> Hph. apply terminal_test in Hph. unfold checked. rewrite Hph. reflexivity.
  - intros -> Hph Hc. unfold checked.
    destruct (_ || _) eqn:E; [apply terminal_test in E; contradiction|].
    rewrite Hc. reflexivity.
  - intros c rest -> Hph Hc. unfold checked.
    destruct (_ || _) eqn:E; [apply terminal_test in E; contradiction|].
    rewrite Hc. split.
    + intros ->. reflexivity.
    + intros Hn. apply String.eqb_neq in Hn. rewrite Hn. reflexivity.
  - intros msg ph. repeat split; discriminate.
Qed.

(** ** Complete, and the command as a whole *)

Ltac step_Complete :=
  match goal with
  | |- context [if ?b then _ else _] => destruct b eqn:?
  | |- context [match ?x with Some _ => _ | None => _ end] => destruct x eqn:?
  | |- context [let '(_, _) := ?x in _] => destruct x eqn:?
  end; cbn -[channels Z.mul] in *.

(** [Complete] opens no remote command channel. *)
Lemma Complete_channels (args : list string) (o : SniffOptions) (t : Trace) :
  channels (Complete env args o t).2 = channels t.
Proof.
  unfold Complete, bind, call, ret.
  repeat step_Complete;
    rewrite ?channels_app; cbn; rewrite ?app_nil_r; reflexivity.
Qed.

(** After a successful [Complete] the one REST configuration of the
    invocation carries a request timeout of thirty seconds, and the
    probe, the upload and the capture are all submitted with it. *)
Lemma Complete_sets_request_timeout
    (args : list string) (o o' : SniffOptions) (t t' : Trace) :
  Complete env args o t = ((o', Returns nil_error), t') ->
  exists cfg,
    restConfig o' = Some cfg /\
    Timeout cfg = 30 * time_Second /\
    (forall p, RestConfig (ExecKubeRequest (probeRequest o' p)) = Some cfg) /\
    RestConfig (UploadKubeRequest (uploadRequest o')) = Some cfg /\
    (forall w, RestConfig (ExecKubeRequest (captureRequest o' w)) = Some cfg).
Proof.
  unfold Complete, bind, call, ret.
  repeat step_Complete; intros H; inversion H; subst; clear H;
    try match goal with
        | Hn : not_nil ?x = true, Hx : ?x = nil_error |- _ =>
            rewrite Hx in Hn; discriminate
        end.
  eexists. cbn. repeat split.
Qed.

(** [Validate] opens no remote command channel. *)
Lemma Validate_channels (o : SniffOptions) (t : Trace) :
  channels (Validate env o t).2 = channels t.
Proof.
  unfold Validate, bind, call, ret.
  repeat step_Complete;
    rewrite ?channels_app; cbn; rewrite ?app_nil_r; reflexivity.
Qed.

(** A failed validation ends the command before any remote command
    channel has been opened. *)
Lemma RunE_stops_at_validation
    (f : Flags) (args : list string) (t t1 t2 : Trace) (o1 o2 : SniffOptions) (e : error) :
  Complete env args (bindFlags f) t = ((o1, Returns nil_error), t1) ->
  Validate env o1 t1 = ((o2, Returns (Some e)), t2) ->
  RunE env f args t = (Returns (Some e), t2) /\ channels t2 = channels t.
Proof.
  intros Hc Hv. split.
  - unfold RunE, bind. rewrite Hc. unfold nil_error. cbv beta iota.
    rewrite Hv. reflexivity.
  - pose proof (Complete_channels args (bindFlags f) t) as Hch.
    pose proof (Validate_channels o1 t1) as Hvh.
    rewrite Hc in Hch. rewrite Hv in Hvh. cbn [snd] in *. congruence.
Qed.

End Properties.

(** * Scenarios *)

(** On the sample cluster [Complete] and [Validate] succeed and leave
    the options as [webOptions] has them. *)
Example Complete_Validate_web_1 :
  forall f, In f [defaultFlags; filterFlags; fileFlags; sidecarFlags] ->
  let c := Complete keepingEnv ["web-1"] (bindFlags f) [] in
  c.1 = (set_userSpecifiedContainer (webOptions f) (flag_container f), Returns nil_error) /\
  (Validate keepingEnv c.1.1 c.2).1 = (webOptions f, Returns nil_error).
Proof.
  intros f Hf. cbn in Hf.
  destruct Hf as [<-|[<-|[<-|[<-|[]]]]]; split; vm_compute; reflexivity.
Qed.

(** ** The filter *)

(** C1 (what the code does). For [kubectl sniff web-1 -f "port 80" -o
    out.pcap] the capture is launched as [/tmp/static-tcpdump -U -w -]:
    the remote path and the arguments for unbuffered output to standard
    output, and nothing else.  The filter expression "port 80" is in no
    argv that the command submits. *)
Theorem capture_argv_omits_filter :
  userSpecifiedFilter (webOptions filterFlags) = "port 80" /\
  Command (captureRequest (webOptions filterFlags) (os_File "out.pcap"))
    = ["/tmp/static-tcpdump"; "-U"; "-w"; "-"] /\
  ~ In "port 80" (Command (captureRequest (webOptions filterFlags) (os_File "out.pcap"))) /\
  (RunE keepingEnv filterFlags ["web-1"] []).1 = Returns nil_error /\
  exec_argvs (RunE keepingEnv filterFlags ["web-1"] []).2
    = [ ["/bin/sh"; "-c"; "ls -alt /tmp/static-tcpdump"];
        ["/tmp/static-tcpdump"; "-U"; "-w"; "-"] ].
Proof.
  split; [reflexivity|]. split; [reflexivity|]. split.
  - cbn. intros [H|[H|[H|[H|[]]]]]; discriminate.
  - split; vm_compute; reflexivity.
Qed.

(** The capture argv never depends on the filter. *)
Lemma captureRequest_Command (o : SniffOptions) (w : io_Writer) :
  Command (captureRequest o w) = [userSpecifiedRemoteTcpdumpPath o; "-U"; "-w"; "-"].
Proof. reflexivity. Qed.

(** A remote path with a separator in it is handed to the shell as part
    of the command line, not as one word. *)
Example probe_argv_with_separator :
  Command (probeRequest (webOptions defaultFlags) "/tmp/x; id")
    = ["/bin/sh"; "-c"; "ls -alt /tmp/x; id"].
Proof. reflexivity. Qed.

(** ** The upload's exit status *)

(** C2 (what the code does). The probe reports the binary absent and
    the upload returns exit status 1 with a nil error: provisioning
    returns nil all the same, and [Run] goes on to launch the capture and
    reports success. *)
Theorem upload_exit_status_is_swallowed :
  let o := webOptions fileFlags in
  let probed := [EvExec (probeRequest o (userSpecifiedRemoteTcpdumpPath o))] in
  reports_absent
    (CheckIfTcpdumpExistOnPod rejectingEnv o (userSpecifiedRemoteTcpdumpPath o) []).1 = true /\
  PodUploadFile rejectingEnv probed (uploadRequest o) = (1, None) /\
  UploadTcpdumpIfMissing rejectingEnv o []
    = (nil_error, probed ++ [EvUpload (uploadRequest o)]) /\
  Run rejectingEnv o []
    = (nil_error,
       probed ++ [EvUpload (uploadRequest o); EvCreate "out.pcap";
                  EvExec (captureRequest o (os_File "out.pcap"))]) /\
  (RunE rejectingEnv fileFlags ["web-1"] []).1 = Returns nil_error.
Proof.
  cbv zeta. repeat split; vm_compute; reflexivity.
Qed.

(** ** Counterexamples *)

(** C3, as stated, fails: with an output file, a capture whose channel
    breaks (exit status 1, a transport error) leaves [Run] returning
    nil. *)
Lemma Run_file_mode_capture_failure_unreported :
  let o := webOptions fileFlags in
  let capture := captureRequest o (os_File "out.pcap") in
  ~ (userSpecifiedOutputFile o <> "" ->
     In (EvExec capture) (Run brokenCaptureEnv o []).2 ->
     (forall t, execErr (PodExecuteCommand brokenCaptureEnv t capture) <> None /\
                exitCode (PodExecuteCommand brokenCaptureEnv t capture) <> 0) ->
     (Run brokenCaptureEnv o []).1 <> nil_error).
Proof.
  cbv zeta. intros H. apply H.
  - discriminate.
  - vm_compute. right. right. left. reflexivity.
  - intros t. split; vm_compute; discriminate.
  - vm_compute. reflexivity.
Qed.

(** C4, as stated, fails: after an inconclusive probe (exit status 0
    with a warning on the error stream) no upload is invoked; the
    invocation ends with the probe's error. *)
Lemma probe_error_does_not_upload :
  let o := webOptions defaultFlags in
  let r := PodExecuteCommand warningEnv []
             (probeRequest o (userSpecifiedRemoteTcpdumpPath o)) in
  ~ (execErr r = None -> exitCode r = 0 -> toStdErr r <> "" ->
     In (EvUpload (uploadRequest o)) (Run warningEnv o []).2).
Proof.
  cbv zeta. intros H.
  assert (Hin : In (EvUpload (uploadRequest (webOptions defaultFlags)))
                   (Run warningEnv (webOptions defaultFlags) []).2).
  { apply H; [reflexivity | reflexivity | discriminate]. }
  vm_compute in Hin. destruct Hin as [Hin|[]]. discriminate.
Qed.

(** C6, as stated, fails: a named container that the pod does not have
    passes validation. *)
Lemma Validate_accepts_unknown_container :
  let o := webOptions sidecarFlags in
  let cs := {| clientConfig := set_Timeout sampleConfig (30 * time_Second) |} in
  ~ (clientset o = Some cs ->
     PodsGet keepingEnv [] cs (userSpecifiedNamespace o) (userSpecifiedPod o)
       = (samplePod, None) ->
     userSpecifiedContainer o <> "" ->
     ~ In (userSpecifiedContainer o) (map Name (Containers samplePod)) ->
     exists e, (Validate keepingEnv o []).1.2 = Returns (Some e)).
Proof.
  cbv zeta. intros H.
  destruct H as [e He].
  - reflexivity.
  - reflexivity.
  - discriminate.
  - cbn. intros [Hn|[Hn|[]]]; discriminate.
  - vm_compute in He. discriminate.
Qed.

(** ** Instances *)

(** The two sample environments of a capture that breaks and a capture
    that ends quietly differ in that capture only. *)
Lemma broken_clean_same_but_capture :
  same_but_capture (webOptions defaultFlags) brokenCaptureEnv cleanCaptureEnv.
Proof.
  repeat split.
  intros t req Hreq. cbn in *.
  destruct (is_probe req); [reflexivity|].
  unfold capturing. rewrite !bool_decide_eq_false_2 by exact Hreq. reflexivity.
Qed.

(** The four verdicts of the probe, each on a cluster that produces it. *)
Lemma CheckIfTcpdumpExistOnPod_classifies_witness :
  let o := webOptions defaultFlags in
  (CheckIfTcpdumpExistOnPod brokenCaptureEnv o tcpdumpRemotePath []).1 = (true, nil_error) /\
  (CheckIfTcpdumpExistOnPod rejectingEnv o tcpdumpRemotePath []).1 = (false, nil_error) /\
  (CheckIfTcpdumpExistOnPod warningEnv o tcpdumpRemotePath []).1
    = (false, Some (errors_fundamental "failed to check for tcpdump")) /\
  (CheckIfTcpdumpExistOnPod unreachableEnv o tcpdumpRemotePath []).1
    = (false, Some (foreign_error "unable to upgrade connection")).
Proof.
  cbv zeta. split; [|split; [|split]].
  - destruct (CheckIfTcpdumpExistOnPod_classifies brokenCaptureEnv
                (webOptions defaultFlags) tcpdumpRemotePath [] _ eq_refl) as (H & _).
    apply H; reflexivity.
  - destruct (CheckIfTcpdumpExistOnPod_classifies rejectingEnv
                (webOptions defaultFlags) tcpdumpRemotePath [] _ eq_refl) as (_ & H & _).
    apply H; [reflexivity | discriminate].
  - destruct (CheckIfTcpdumpExistOnPod_classifies warningEnv
                (webOptions defaultFlags) tcpdumpRemotePath [] _ eq_refl) as (_ & _ & H & _).
    apply H; [reflexivity | reflexivity | discriminate].
  - destruct (CheckIfTcpdumpExistOnPod_classifies unreachableEnv
                (webOptions defaultFlags) tcpdumpRemotePath [] _ eq_refl) as (_ & _ & _ & H).
    apply H; reflexivity.
Defined.

(** A warning from the listing ends the run after the probe. *)
Lemma probe_error_aborts_without_upload_witness :
  let o := webOptions defaultFlags in
  Run warningEnv o []
    = (Some (errors_fundamental "failed to check for tcpdump"),
       [EvExec (probeRequest o tcpdumpRemotePath)]) /\
  uploads (Run warningEnv o []).2 = 0%nat.
Proof.
  cbv zeta.
  destruct (probe_error_aborts_without_upload warningEnv (webOptions defaultFlags) [] _ eq_refl)
    as (_ & Hrun & Hup); [reflexivity | reflexivity | discriminate |].
  split; [exact Hrun | exact Hup].
Defined.

(** Writing to out.pcap, the capture's channel breaks and [Run] returns
    nil. *)
Lemma Run_file_mode_returns_nil_witness :
  let o := webOptions fileFlags in
  PodExecuteCommand brokenCaptureEnv
    [EvExec (probeRequest o tcpdumpRemotePath); EvCreate "out.pcap"]
    (captureRequest o (os_File "out.pcap")) = interrupted /\
  Run brokenCaptureEnv o []
    = (nil_error,
       [EvExec (probeRequest o tcpdumpRemotePath); EvCreate "out.pcap";
        EvExec (captureRequest o (os_File "out.pcap"))]).
Proof.
  cbv zeta. split; [reflexivity|].
  apply (Run_file_mode_returns_nil brokenCaptureEnv (webOptions fileFlags) []
           [EvExec (probeRequest (webOptions fileFlags) tcpdumpRemotePath)] interrupted);
    solve [discriminate | reflexivity].
Defined.

(** Feeding the viewer, the relay breaks, the viewer exits cleanly and
    [Run] returns nil, as it does when the relay ends quietly. *)
Lemma Run_viewer_mode_result_witness :
  let o := webOptions defaultFlags in
  Run brokenCaptureEnv o []
    = (nil_error,
       [EvExec (probeRequest o tcpdumpRemotePath); EvStdinPipe viewer;
        EvGo (captureRequest o (stdin_pipe viewer)); EvCmdRun viewer]) /\
  Run cleanCaptureEnv o [] = Run brokenCaptureEnv o [].
Proof.
  cbv zeta.
  destruct (Run_viewer_mode_result brokenCaptureEnv (webOptions defaultFlags) []
              [EvExec (probeRequest (webOptions defaultFlags) tcpdumpRemotePath)])
    as (Hrun & Hsame); [reflexivity | reflexivity | reflexivity |].
  split; [exact Hrun|].
  apply Hsame, broken_clean_same_but_capture.
Defined.

(** Two runs against a container that keeps the upload: one upload. *)
Lemma provisioning_uploads_iff_absent_witness :
  let o := webOptions fileFlags in
  uploads (Run keepingEnv o []).2 = 1%nat /\
  uploads (Run keepingEnv o (Run keepingEnv o []).2).2 = uploads (Run keepingEnv o []).2 /\
  (uploads (Run keepingEnv o (Run keepingEnv o []).2).2 <= uploads [] + 1)%nat.
Proof.
  cbv zeta. split; [reflexivity|].
  destruct (provisioning_uploads_iff_absent keepingEnv
              (webOptions fileFlags) (webOptions fileFlags) []) as (_ & _ & H).
  apply H. reflexivity.
Defined.

(** The three failures of validation, the default container, and a
    named container, each on a cluster that produces it. *)
Lemma Validate_fails_fast_witness :
  let o := webOptions defaultFlags in
  let unnamed := set_userSpecifiedContainer o "" in
  (Validate (withPod (noPod, Some "pods web-1 not found")) o []).1
    = (o, Returns (Some (foreign_error "pods web-1 not found"))) /\
  (Validate (withPod (donePod, None)) o []).1
    = (o, Returns (Some (errors_fundamental
         "cannot sniff on a container in a completed pod; current phase is Succeeded"))) /\
  (Validate (withPod (emptyPod, None)) o []).1
    = (o, Returns (Some (errors_fundamental "no containers in specified pod"))) /\
  (Validate keepingEnv unnamed []).1
    = (set_userSpecifiedContainer unnamed "hello-minikube", Returns nil_error) /\
  (Validate keepingEnv (webOptions sidecarFlags) []).1
    = (webOptions sidecarFlags, Returns nil_error).
Proof.
  cbv zeta.
  pose (cs := {| clientConfig := set_Timeout sampleConfig (30 * time_Second) |}).
  split; [|split; [|split; [|split]]].
  - destruct (Validate_fails_fast (withPod (noPod, Some "pods web-1 not found"))
                (webOptions defaultFlags) [] cs noPod (Some "pods web-1 not found"))
      as (_ & H & _); [discriminate | discriminate | reflexivity | reflexivity |].
    apply H. reflexivity.
  - destruct (Validate_fails_fast (withPod (donePod, None))
                (webOptions defaultFlags) [] cs donePod None)
      as (_ & _ & H & _); [discriminate | discriminate | reflexivity | reflexivity |].
    apply H; [reflexivity | left; reflexivity].
  - destruct (Validate_fails_fast (withPod (emptyPod, None))
                (webOptions defaultFlags) [] cs emptyPod None)
      as (_ & _ & _ & H & _); [discriminate | discriminate | reflexivity | reflexivity |].
    apply H; [reflexivity | intros [Hp|Hp]; discriminate | reflexivity].
  - destruct (Validate_fails_fast keepingEnv
                (set_userSpecifiedContainer (webOptions defaultFlags) "") [] cs samplePod None)
      as (_ & _ & _ & _ & H & _); [discriminate | discriminate | reflexivity | reflexivity |].
    apply (H {| Name := "hello-minikube" |} [ {| Name := "istio-proxy" |} ]);
      [reflexivity | intros [Hp|Hp]; discriminate | reflexivity | reflexivity].
  - destruct (Validate_fails_fast keepingEnv
                (webOptions sidecarFlags) [] cs samplePod None)
      as (_ & _ & _ & _ & H & _); [discriminate | discriminate | reflexivity | reflexivity |].
    apply (H {| Name := "hello-minikube" |} [ {| Name := "istio-proxy" |} ]);
      [reflexivity | intros [Hp|Hp]; discriminate | reflexivity | discriminate].
Defined.

(** * The rest of the command *)

Section Command.

Context (env : Env).

(** ** Complete *)

(** What a successful [Complete] has read and what it leaves. *)
Lemma Complete_success_inv (args : list string) (o o' : SniffOptions) (t t' : Trace) :
  Complete env args o t = ((o', Returns nil_error), t') ->
  exists arg0 rest raw cfg cs ctx,
    args = arg0 :: rest /\
    RawConfig env t = (raw, None) /\
    ToRESTConfig env (t ++ [EvRawConfig]) = (Some cfg, None) /\
    NewForConfig env (t ++ [EvRawConfig; EvToRESTConfig])
                 (set_Timeout cfg (30 * time_Second)) = (cs, None) /\
    Contexts raw !! CurrentContext raw = Some ctx /\
    t' = t ++ [EvRawConfig; EvToRESTConfig;
               EvNewForConfig (set_Timeout cfg (30 * time_Second))] /\
    o' = {| resultingContext := Some (set_ContextNamespace ctx (userSpecifiedNamespace o));
            userSpecifiedPod := arg0;
            userSpecifiedFilter := userSpecifiedFilter o;
            userSpecifiedContainer := userSpecifiedContainer o;
            userSpecifiedNamespace := userSpecifiedNamespace o;
            userSpecifiedOutputFile := userSpecifiedOutputFile o;
            userSpecifiedLocalTcpdumpPath := userSpecifiedLocalTcpdumpPath o;
            userSpecifiedRemoteTcpdumpPath := userSpecifiedRemoteTcpdumpPath o;
            clientset := cs;
            restConfig := Some (set_Timeout cfg (30 * time_Second));
            rawConfig := raw |}.
Proof.
  unfold Complete, bind, call, ret.
  destruct args as [|arg0 rest]; cbn -[Z.mul]; [discriminate|].
  destruct (RawConfig env t) as [raw [e|]] eqn:Hraw; cbn -[Z.mul]; [discriminate|].
  destruct (ToRESTConfig env (t ++ [EvRawConfig])) as [[cfg|] [e|]] eqn:Hcfg;
    cbn -[Z.mul]; try discriminate.
  rewrite <- app_assoc. cbn -[Z.mul].
  destruct (NewForConfig env _ _) as [cs [e|]] eqn:Hcs; cbn -[Z.mul]; [discriminate|].
  destruct (Contexts raw !! CurrentContext raw) as [ctx|] eqn:Hctx; cbn -[Z.mul];
    [|discriminate].
  intros H. inversion H; subst; clear H.
  exists arg0, rest, raw, cfg, cs, ctx.
  rewrite <- !app_assoc. cbn -[Z.mul]. repeat split; assumption.
Qed.



(** ** No panic *)

Lemma Complete_no_panic (args : list string) (o : SniffOptions) (t : Trace) :
  loaders_return_values env ->
  (Complete env args o t).1.2 <> Panics /\
  ((Complete env args o t).1.2 = Returns nil_error ->
   clientset (Complete env args o t).1.1 <> None).
Proof.
  intros [Hcfg Hcs]. unfold Complete, bind, call, ret.
  destruct args as [|arg0 rest]; cbn -[Z.mul]; [split; discriminate|].
  destruct (RawConfig env t) as [raw [e|]]; cbn -[Z.mul]; [split; discriminate|].
  pose proof (Hcfg (t ++ [EvRawConfig])) as Hcfg'.
  destruct (ToRESTConfig env (t ++ [EvRawConfig])) as [cfg [e|]];
    cbn -[Z.mul] in *; [split; discriminate|].
  destruct cfg as [cfg|]; [|exfalso; apply Hcfg'; reflexivity].
  cbn -[Z.mul].
  match goal with
  | |- context [NewForConfig env ?h ?c] => pose proof (Hcs h c) as Hcs'
  end.
  destruct (NewForConfig env _ _) as [cs [e|]]; cbn -[Z.mul] in *; [split; discriminate|].
  destruct (Contexts raw !! CurrentContext raw); cbn -[Z.mul]; split;
    try discriminate; intros _; apply Hcs'; reflexivity.
Qed.

Lemma Validate_no_panic (o : SniffOptions) (t : Trace) :
  clientset o <> None -> (Validate env o t).1.2 <> Panics.
Proof.
  intros Hcs. unfold Validate, bind, call, ret.
  destruct (_ =? _)%nat; [discriminate|].
  destruct (String.eqb (userSpecifiedNamespace o) ""); [discriminate|].
  destruct (clientset o) as [cs|]; [|contradiction].
  destruct (PodsGet env t cs _ _) as [pod [e|]]; cbn; [discriminate|].
  destruct (_ || _); cbn; [discriminate|].
  destruct (Containers pod) as [|c rest]; cbn; [discriminate|].
  destruct (String.eqb (userSpecifiedContainer o) ""); discriminate.
Qed.

(** The command as one equation over its three stages. *)
Lemma RunE_eq (f : Flags) (args : list string) (t : Trace) :
  RunE env f args t =
  let c := Complete env args (bindFlags f) t in
  match c.1.2 with
  | Returns None =>
      let v := Validate env c.1.1 c.2 in
      match v.1.2 with
      | Returns None =>
          let r := Run env v.1.1 v.2 in (Returns r.1, r.2)
      | other => (other, v.2)
      end
  | other => (other, c.2)
  end.
Proof.
  unfold RunE, bind, ret.
  destruct (Complete env args (bindFlags f) t) as [[o1 [[e1|]|]] t1]; cbn; try reflexivity.
  destruct (Validate env o1 t1) as [[o2 [[e2|]|]] t2]; cbn; try reflexivity.
  destruct (Run env o2 t2) as [[e|] t3]; reflexivity.
Qed.

(** X3. When the loaders keep to the Go convention (a nil error comes
    with a non-nil pointer) the command never panics: the pointers
    [Complete] dereferences and hands to [Validate] are non-nil, and
    [Validate] indexes the first container only after it has checked
    that there is one. *)
Theorem RunE_never_panics (f : Flags) (args : list string) (t : Trace) :
  loaders_return_values env ->
  (RunE env f args t).1 <> Panics.
Proof.
  intros Hl. rewrite RunE_eq. cbv zeta.
  destruct (Complete_no_panic args (bindFlags f) t Hl) as [Hc Hcs].
  destruct (Complete env args (bindFlags f) t) as [[o1 c1] t1]; cbn in *.
  destruct c1 as [[e1|]|]; cbn; [discriminate| |exact Hc].
  pose proof (Validate_no_panic o1 t1 (Hcs eq_refl)) as Hv.
  destruct (Validate env o1 t1) as [[o2 c2] t2]; cbn in *.
  destruct c2 as [[e2|]|]; cbn; [discriminate|discriminate|exact Hv].
Qed.

(** ** Validate *)

(** X4. With an empty current-context name, or else with an empty
    namespace, [Validate] fails at once: it returns the error of that
    check, makes no call at all (the pod is not looked up) and leaves the
    options as they were.  The context is checked first. *)
Theorem Validate_rejects_before_lookup (o : SniffOptions) (t : Trace) :
  (CurrentContext (rawConfig o) = "" ->
   Validate env o t
     = ((o, Returns (Some (errors_fundamental "context doesn't exist"))), t)) /\
  (CurrentContext (rawConfig o) <> "" -> userSpecifiedNamespace o = "" ->
   Validate env o t
     = ((o, Returns (Some (errors_fundamental
                       "namespace value is empty should be custom or default"))), t)).
Proof.
  unfold Validate. split.
  - intros ->. reflexivity.
  - intros Hctx ->. apply length_zero_test in Hctx. rewrite Hctx. reflexivity.
Qed.

Lemma set_userSpecifiedContainer_same (o : SniffOptions) :
  set_userSpecifiedContainer o (userSpecifiedContainer o) = o.
Proof. destruct o; reflexivity. Qed.

(** What [Validate] hands on: the options it was given, or those with
    the pod's first container filled in. *)
Lemma Validate_options (o : SniffOptions) (t : Trace) :
  (Validate env o t).1.1 = o \/
  (userSpecifiedContainer o = "" /\
   (Validate env o t).1.2 = Returns nil_error /\
   exists cs pod c rest,
     clientset o = Some cs /\
     PodsGet env t cs (userSpecifiedNamespace o) (userSpecifiedPod o) = (pod, None) /\
     Containers pod = c :: rest /\
     (Validate env o t).1.1 = set_userSpecifiedContainer o (Name c)).
Proof.
  unfold Validate, bind, call, ret.
  destruct (_ =? _)%nat; [left; reflexivity|].
  destruct (String.eqb (userSpecifiedNamespace o) ""); [left; reflexivity|].
  destruct (clientset o) as [cs|]; [|left; reflexivity].
  destruct (PodsGet env t cs _ _) as [pod [e|]] eqn:Hget; cbn; [left; reflexivity|].
  destruct (_ || _); cbn; [left; reflexivity|].
  destruct (Containers pod) as [|c rest] eqn:Hc; cbn; [left; reflexivity|].
  destruct (String.eqb (userSpecifiedContainer o) "") eqn:Hn; [|left; reflexivity].
  right. apply String.eqb_eq in Hn. split; [exact Hn|]. split; [reflexivity|].
  exists cs, pod, c, rest. repeat split; assumption.
Qed.

(** X5. [Validate] changes nothing in the options but the container
    name, and that only when no container was named and validation
    succeeds: a named container, and the options of a failed validation,
    come back untouched. *)
Theorem Validate_changes_container_only (o : SniffOptions) (t : Trace) :
  (Validate env o t).1.1
    = set_userSpecifiedContainer o (userSpecifiedContainer (Validate env o t).1.1) /\
  (userSpecifiedContainer o <> "" -> (Validate env o t).1.1 = o) /\
  ((Validate env o t).1.2 <> Returns nil_error -> (Validate env o t).1.1 = o).
Proof.
  destruct (Validate_options o t) as [H|(Hn & Hok & cs & pod & c & rest & _ & _ & _ & H)].
  - rewrite H. split; [symmetry; apply set_userSpecifiedContainer_same|].
    split; reflexivity.
  - rewrite H. split; [reflexivity|]. split; [contradiction|].
    intros Hne. contradiction.
Qed.

(** ** Run *)

Lemma UploadTcpdumpIfMissing_calls (o : SniffOptions) (t : Trace) :
  exists up,
    (up = [] \/ up = [EvUpload (uploadRequest o)]) /\
    (UploadTcpdumpIfMissing env o t).2
      = t ++ EvExec (probeRequest o (userSpecifiedRemoteTcpdumpPath o)) :: up.
Proof.
  rewrite UploadTcpdumpIfMissing_eq. cbv zeta.
  destruct (verdict _) as [isExist [e|]]; cbn.
  - exists []. split; [left|]; reflexivity.
  - destruct isExist; cbn.
    + exists []. split; [left|]; reflexivity.
    + eexists. split; [right; reflexivity|]. rewrite <- app_assoc. reflexivity.
Qed.

(** [Run] as one equation over provisioning and the answers for the sink
    and the viewer. *)
Lemma Run_eq (o : SniffOptions) (t : Trace) :
  Run env o t =
  let p := UploadTcpdumpIfMissing env o t in
  let file := userSpecifiedOutputFile o in
  match p.1 with
  | Some e => (Some e, p.2)
  | None =>
      if String.eqb file "" then
        match StdinPipe env p.2 viewer with
        | Some msg => (Some (foreign_error msg), p.2 ++ [EvStdinPipe viewer])
        | None =>
            (callee (cmd_Run env (p.2 ++ [EvStdinPipe viewer;
                                          EvGo (captureRequest o (stdin_pipe viewer))])
                       viewer),
             p.2 ++ [EvStdinPipe viewer; EvGo (captureRequest o (stdin_pipe viewer));
                     EvCmdRun viewer])
        end
      else
        match os_Create env p.2 file with
        | Some msg => (Some (foreign_error msg), p.2 ++ [EvCreate file])
        | None => (nil_error,
                   p.2 ++ [EvCreate file; EvExec (captureRequest o (os_File file))])
        end
  end.
Proof.
  unfold Run, bind. destruct (UploadTcpdumpIfMissing env o t) as [[e|] t1]; cbn;
    [reflexivity|].
  destruct (String.eqb (userSpecifiedOutputFile o) ""); cbn; unfold call, ret; fold viewer.
  - destruct (StdinPipe env t1 viewer); cbn; [reflexivity|].
    rewrite <- !app_assoc. cbn. destruct (cmd_Run env _ viewer); reflexivity.
  - destruct (os_Create env t1 _); cbn; [reflexivity|].
    rewrite <- app_assoc. reflexivity.
Qed.

(** X6. An upload that comes back with an error is fatal: when the
    probe reports the binary absent and [kube.PodUploadFile] returns a
    non-nil error, [Run] returns that error wrapped in a message that
    carries the exit status in decimal, and stops there: no output file
    is created, no viewer pipe opened, no capture launched. *)
Theorem upload_error_is_fatal (o : SniffOptions) (t : Trace) (code : Z) (msg : string) :
  reports_absent
    (CheckIfTcpdumpExistOnPod env o (userSpecifiedRemoteTcpdumpPath o) t).1 = true ->
  PodUploadFile env (t ++ [EvExec (probeRequest o (userSpecifiedRemoteTcpdumpPath o))])
                (uploadRequest o) = (code, Some msg) ->
  Run env o t
    = (Some (errors_withMessage (foreign_error msg)
               ("upload file command failed, exitCode: " +:+ pretty code)),
       t ++ [EvExec (probeRequest o (userSpecifiedRemoteTcpdumpPath o));
             EvUpload (uploadRequest o)]).
Proof.
  intros Habsent Hup. rewrite Run_eq, UploadTcpdumpIfMissing_eq. cbv zeta.
  rewrite CheckIfTcpdumpExistOnPod_eq in Habsent. cbn [fst] in Habsent.
  destruct (verdict _) as [[|] [e|]]; cbn in Habsent; try discriminate.
  cbn. rewrite Hup. cbn. rewrite <- app_assoc. reflexivity.
Qed.

(** X7. The calls of one [Run], in order: the presence probe always
    and first, then possibly one upload, then the sink and the capture
    of the chosen mode (output file and capture in this goroutine, or
    viewer pipe, capture in a new goroutine and the viewer's run);
    [Run] may stop early, but it makes no other call and none out of
    this order. *)
Theorem Run_call_sequence (o : SniffOptions) (t : Trace) :
  exists new up,
    (Run env o t).2 = t ++ new /\
    (up = [] \/ up = [EvUpload (uploadRequest o)]) /\
    new `prefix_of`
      (EvExec (probeRequest o (userSpecifiedRemoteTcpdumpPath o)) :: up ++ sink_and_capture o) /\
    head new = Some (EvExec (probeRequest o (userSpecifiedRemoteTcpdumpPath o))).
Proof.
  rewrite Run_eq. cbv zeta.
  destruct (UploadTcpdumpIfMissing_calls o t) as (up & Hup & Hp).
  destruct (UploadTcpdumpIfMissing env o t) as [err t1]. cbn [fst snd] in *. subst t1.
  unfold sink_and_capture.
  set (probe := EvExec (probeRequest o (userSpecifiedRemoteTcpdumpPath o))).
  destruct err as [e|].
  { exists (probe :: up), up. split; [reflexivity|]. split; [exact Hup|].
    split; [|reflexivity]. eexists. rewrite <- app_comm_cons. reflexivity. }
  destruct (String.eqb (userSpecifiedOutputFile o) "").
  - destruct (StdinPipe env _ viewer).
    + exists (probe :: up ++ [EvStdinPipe viewer]), up.
      split; [cbn [snd]; rewrite <- app_assoc; reflexivity|]. split; [exact Hup|].
      split; [|reflexivity]. eexists. cbn. rewrite <- app_assoc. reflexivity.
    + exists (probe :: up ++ [EvStdinPipe viewer;
                              EvGo (captureRequest o (stdin_pipe viewer));
                              EvCmdRun viewer]), up.
      split; [cbn [snd]; rewrite <- app_assoc; reflexivity|]. split; [exact Hup|].
      split; [|reflexivity]. exists []. rewrite app_nil_r. reflexivity.
  - destruct (os_Create env _ _).
    + exists (probe :: up ++ [EvCreate (userSpecifiedOutputFile o)]), up.
      split; [cbn [snd]; rewrite <- app_assoc; reflexivity|]. split; [exact Hup|].
      split; [|reflexivity]. eexists. cbn. rewrite <- app_assoc. reflexivity.
    + exists (probe :: up ++ [EvCreate (userSpecifiedOutputFile o);
                              EvExec (captureRequest o (os_File (userSpecifiedOutputFile o)))]),
             up.
      split; [cbn [snd]; rewrite <- app_assoc; reflexivity|]. split; [exact Hup|].
      split; [|reflexivity]. exists []. rewrite app_nil_r. reflexivity.
Qed.

Lemma not_capture_in_provisioning (o : SniffOptions) (up : Trace) :
  up = [] \/ up = [EvUpload (uploadRequest o)] ->
  ~ capture_launched o
      (EvExec (probeRequest o (userSpecifiedRemoteTcpdumpPath o)) :: up).
Proof.
  intros Hup [w [Hin|Hin]]; destruct Hup; subst up; cbn in Hin;
    repeat (destruct Hin as [Hin|Hin]); try contradiction; discriminate.
Qed.

(** X8. [Run] launches the capture exactly when provisioning returned
    nil and the sink of the chosen mode (the output file, or the viewer's
    input pipe) was obtained; when either failed, [Run] returns an error
    and the capture is never started. *)
Theorem capture_launched_iff (o : SniffOptions) (t new : Trace) :
  (Run env o t).2 = t ++ new ->
  (capture_launched o new <->
   (UploadTcpdumpIfMissing env o t).1 = nil_error /\
   sink_error env o (UploadTcpdumpIfMissing env o t).2 = nil_error) /\
  (~ capture_launched o new -> (Run env o t).1 <> nil_error).
Proof.
  rewrite Run_eq. cbv zeta. unfold sink_error.
  destruct (UploadTcpdumpIfMissing_calls o t) as (up & Hup & Hp).
  destruct (UploadTcpdumpIfMissing env o t) as [err t1]. cbn [fst snd] in *. subst t1.
  pose proof (not_capture_in_provisioning o up Hup) as Hnot.
  set (probe := EvExec (probeRequest o (userSpecifiedRemoteTcpdumpPath o))) in *.
  destruct err as [e|].
  { intros H. apply app_inv_head in H. subst new. split.
    - split; [intros Hl; contradiction | intros [Hn _]; discriminate].
    - intros _. discriminate. }
  destruct (String.eqb (userSpecifiedOutputFile o) "").
  - destruct (StdinPipe env _ viewer) as [m|]; cbn [fst snd]; rewrite <- app_assoc;
      intros H; apply app_inv_head in H; subst new.
    + assert (Hno : ~ capture_launched o ((probe :: up) ++ [EvStdinPipe viewer])).
      { intros [w Hin]. apply Hnot. exists w.
        rewrite !in_app_iff in Hin. cbn in Hin.
        cbn. destruct Hin as [[Hin|[Hin|[]]]|[Hin|[Hin|[]]]]; try discriminate; tauto. }
      split; [|intros _; discriminate].
      split; [intros Hl; contradiction | intros [_ Hn]; discriminate].
    + split.
      * split; [intros _; split; reflexivity|].
        intros _. exists (stdin_pipe viewer). right.
        rewrite in_app_iff. right. cbn. tauto.
      * intros Hno. exfalso. apply Hno. exists (stdin_pipe viewer). right.
        rewrite in_app_iff. right. cbn. tauto.
  - destruct (os_Create env _ _) as [m|]; cbn [fst snd]; rewrite <- app_assoc;
      intros H; apply app_inv_head in H; subst new.
    + assert (Hno : ~ capture_launched o
                      ((probe :: up) ++ [EvCreate (userSpecifiedOutputFile o)])).
      { intros [w Hin]. apply Hnot. exists w.
        rewrite !in_app_iff in Hin. cbn in Hin.
        cbn. destruct Hin as [[Hin|[Hin|[]]]|[Hin|[Hin|[]]]]; try discriminate; tauto. }
      split; [|intros _; discriminate].
      split; [intros Hl; contradiction | intros [_ Hn]; discriminate].
    + split.
      * split; [intros _; split; reflexivity|].
        intros _. exists (os_File (userSpecifiedOutputFile o)). left.
        rewrite in_app_iff. right. cbn. tauto.
      * intros Hno. exfalso. apply Hno.
        exists (os_File (userSpecifiedOutputFile o)). left.
        rewrite in_app_iff. right. cbn. tauto.
Qed.

(** ** The command as a whole *)

Lemma local_calls (l : Trace) :
  Forall (fun e => opens_channel e = false) l ->
  channels l = [] /\ uploads l = 0%nat /\ (forall e, In e l -> target_of e = None).
Proof.
  induction 1 as [|e l He Hl (IHc & IHu & IHt)]; [repeat split; intros e []|].
  unfold channels, uploads in *. cbn. rewrite He.
  destruct e; try discriminate; cbn; (split; [exact IHc|]; split; [exact IHu|]);
    intros e' [<-|Hin]; try reflexivity; apply IHt; exact Hin.
Qed.

Ltac local_trace :=
  cbn [fst snd]; rewrite <- ?app_assoc; cbn [app];
  first [ exists []; split; [symmetry; apply app_nil_r | constructor]
        | eexists; split; [reflexivity | repeat constructor] ].

Ltac step_call :=
  match goal with
  | |- context [if ?b then _ else _] => destruct b
  | |- context [match ?x with Some _ => _ | None => _ end] => destruct x
  | |- context [let '(_, _) := ?x in _] => destruct x
  end; cbn -[Z.mul].

(** [Complete] and [Validate] only append calls that open no channel. *)
Lemma Complete_local (args : list string) (o : SniffOptions) (t : Trace) :
  exists new, (Complete env args o t).2 = t ++ new /\
              Forall (fun e => opens_channel e = false) new.
Proof.
  unfold Complete, bind, call, ret.
  repeat step_call; local_trace.
Qed.

Lemma Validate_local (o : SniffOptions) (t : Trace) :
  exists new, (Validate env o t).2 = t ++ new /\
              Forall (fun e => opens_channel e = false) new.
Proof.
  unfold Validate, bind, call, ret.
  repeat step_call; local_trace.
Qed.

(** What [Run] appends addresses the target of the options, with at
    most one upload and at most three channels. *)
Lemma Run_remote_calls (o : SniffOptions) (t : Trace) :
  exists new,
    (Run env o t).2 = t ++ new /\
    (forall e k, In e new -> target_of e = Some k -> k = kubeRequest o) /\
    (uploads new <= 1)%nat /\
    (length (channels new) <= 3)%nat.
Proof.
  rewrite Run_eq. cbv zeta.
  destruct (UploadTcpdumpIfMissing_calls o t) as (up & Hup & Hp).
  destruct (UploadTcpdumpIfMissing env o t) as [err t1]. cbn [fst snd] in *. subst t1.
  assert (Hshape : forall tail,
    (forall e k, In e tail -> target_of e = Some k -> k = kubeRequest o) ->
    (uploads tail = 0)%nat -> (length (channels tail) <= 1)%nat ->
    exists new,
      (t ++ EvExec (probeRequest o (userSpecifiedRemoteTcpdumpPath o)) :: up) ++ tail
        = t ++ new /\
      (forall e k, In e new -> target_of e = Some k -> k = kubeRequest o) /\
      (uploads new <= 1)%nat /\ (length (channels new) <= 3)%nat).
  { intros tail Ht Hu Hc. eexists. split; [rewrite <- app_assoc; reflexivity|].
    cbn [app]. split; [|split].
    - intros e k [<-|Hin]; [cbn; congruence|].
      apply in_app_iff in Hin. destruct Hin as [Hin|Hin]; [|eauto].
      destruct Hup; subst up; cbn in Hin; [contradiction|].
      destruct Hin as [<-|[]]. cbn. congruence.
    - change (uploads ([EvExec (probeRequest o (userSpecifiedRemoteTcpdumpPath o))]
                        ++ up ++ tail) <= 1)%nat.
      rewrite !uploads_app, Hu. destruct Hup; subst up; cbn; lia.
    - change (length (channels ([EvExec (probeRequest o (userSpecifiedRemoteTcpdumpPath o))]
                                 ++ up ++ tail)) <= 3)%nat.
      rewrite !channels_app, !length_app. destruct Hup; subst up; cbn in *; lia. }
  destruct err as [e|].
  { destruct (Hshape []) as (new & Hnew & H); [intros ? ? [] | reflexivity | cbn; lia |].
    rewrite app_nil_r in Hnew. exists new. split; [exact Hnew | exact H]. }
  destruct (String.eqb (userSpecifiedOutputFile o) "").
  - destruct (StdinPipe env _ viewer); cbn [snd]; apply Hshape;
      try reflexivity; try (cbn; lia);
      intros e k Hin Hk; cbn in Hin;
      repeat (destruct Hin as [<-|Hin]); try contradiction; cbn in Hk; congruence.
  - destruct (os_Create env _ _); cbn [snd]; apply Hshape;
      try reflexivity; try (cbn; lia);
      intros e k Hin Hk; cbn in Hin;
      repeat (destruct Hin as [<-|Hin]); try contradiction; cbn in Hk; congruence.
Qed.

(** The three stages append to the trace one after the other. *)
Lemma RunE_stages (f : Flags) (args : list string) (t : Trace) :
  let c := Complete env args (bindFlags f) t in
  let v := Validate env c.1.1 c.2 in
  (exists cnew, (RunE env f args t).2 = t ++ cnew /\
                Forall (fun e => opens_channel e = false) cnew) \/
  (c.1.2 = Returns nil_error /\ v.1.2 = Returns nil_error /\
   exists cnew rnew,
     (RunE env f args t).2 = t ++ cnew ++ rnew /\
     Forall (fun e => opens_channel e = false) cnew /\
     (Run env v.1.1 v.2).2 = v.2 ++ rnew).
Proof.
  cbv zeta. rewrite RunE_eq. cbv zeta.
  destruct (Complete_local args (bindFlags f) t) as (cnew & Hc & Hcl).
  destruct (Complete env args (bindFlags f) t) as [[o1 c1] t1]. cbn [fst snd] in *.
  subst t1.
  destruct c1 as [[e1|]|]; [left; exists cnew; split; [reflexivity|exact Hcl]|
                            |left; exists cnew; split; [reflexivity|exact Hcl]].
  destruct (Validate_local o1 (t ++ cnew)) as (vnew & Hv & Hvl).
  destruct (Validate env o1 (t ++ cnew)) as [[o2 c2] t2]. cbn [fst snd] in *.
  subst t2.
  assert (Hboth : Forall (fun e => opens_channel e = false) (cnew ++ vnew))
    by (apply Forall_app; split; assumption).
  destruct c2 as [[e2|]|];
    [left; exists (cnew ++ vnew); rewrite app_assoc; split; [reflexivity|exact Hboth]|
    |left; exists (cnew ++ vnew); rewrite app_assoc; split; [reflexivity|exact Hboth]].
  right. split; [reflexivity|]. split; [reflexivity|].
  destruct (Run_remote_calls o2 ((t ++ cnew) ++ vnew)) as (rnew & Hr & _).
  exists (cnew ++ vnew), rnew. cbn [snd]. rewrite Hr.
  split; [rewrite !app_assoc; reflexivity|]. split; [exact Hboth|reflexivity].
Qed.

(** X9. Every remote operation of an invocation (the probe, the upload,
    the capture) addresses the namespace of the namespace flag and the
    pod named by the first positional argument, and, when a container
    was named, that container. *)
Theorem RunE_targets
    (f : Flags) (args : list string) (t new : Trace) (e : Event) (k : kube_KubeRequest) :
  (RunE env f args t).2 = t ++ new ->
  In e new ->
  target_of e = Some k ->
  Namespace k = flag_namespace f /\
  args !! 0%nat = Some (Pod k) /\
  (flag_container f <> "" -> Container k = flag_container f).
Proof.
  intros Hnew Hin Hk.
  destruct (RunE_stages f args t) as [(cnew & Ht & Hl)|(Hc & Hv & cnew & rnew & Ht & Hl & Hr)].
  - rewrite Ht in Hnew. apply app_inv_head in Hnew. subst new.
    destruct (local_calls cnew Hl) as (_ & _ & Hnone).
    rewrite (Hnone e Hin) in Hk. discriminate.
  - rewrite Ht in Hnew. apply app_inv_head in Hnew. subst new.
    apply in_app_iff in Hin. destruct Hin as [Hin|Hin].
    { destruct (local_calls cnew Hl) as (_ & _ & Hnone).
      rewrite (Hnone e Hin) in Hk. discriminate. }
    destruct (Complete env args (bindFlags f) t) as [[o1 c1] t1] eqn:HC.
    cbn [fst snd] in *. subst c1.
    destruct (Complete_success_inv args (bindFlags f) o1 t t1 HC)
      as (arg0 & rest & raw & cfg & cs & ctx & -> & _ & _ & _ & _ & _ & Ho1).
    destruct (Run_remote_calls (Validate env o1 t1).1.1 (Validate env o1 t1).2)
      as (rnew' & Hr' & Htarget & _).
    rewrite Hr in Hr'. apply app_inv_head in Hr'. subst rnew'.
    rewrite (Htarget e k Hin Hk).
    destruct (Validate_options o1 t1) as [Ho2|(Hn & _ & _ & _ & c & _ & _ & _ & _ & Ho2)];
      rewrite Ho2; subst o1; cbn in *.
    + repeat split; reflexivity.
    + split; [reflexivity|]. split; [reflexivity|]. intros Hne. contradiction.
Qed.

(** X10. One invocation opens at most three remote command channels, of
    which at most one is an upload, and it opens none unless both
    [Complete] and [Validate] have returned nil. *)
Theorem RunE_channel_budget (f : Flags) (args : list string) (t new : Trace) :
  (RunE env f args t).2 = t ++ new ->
  (uploads new <= 1)%nat /\
  (length (channels new) <= 3)%nat /\
  (channels new <> [] ->
   (Complete env args (bindFlags f) t).1.2 = Returns nil_error /\
   (Validate env (Complete env args (bindFlags f) t).1.1
                 (Complete env args (bindFlags f) t).2).1.2 = Returns nil_error).
Proof.
  intros Hnew.
  destruct (RunE_stages f args t) as [(cnew & Ht & Hl)|(Hc & Hv & cnew & rnew & Ht & Hl & Hr)];
    rewrite Ht in Hnew; apply app_inv_head in Hnew; subst new;
    destruct (local_calls cnew Hl) as (Hch & Hup & _).
  - rewrite Hch, Hup. cbn. split; [lia|]. split; [lia|]. intros H. contradiction.
  - destruct (Run_remote_calls
                (Validate env (Complete env args (bindFlags f) t).1.1
                              (Complete env args (bindFlags f) t).2).1.1
                (Validate env (Complete env args (bindFlags f) t).1.1
                              (Complete env args (bindFlags f) t).2).2)
      as (rnew' & Hr' & _ & Hu & Hn).
    rewrite Hr in Hr'. apply app_inv_head in Hr'. subst rnew'.
    rewrite uploads_app, channels_app, length_app, Hch, Hup. cbn.
    split; [lia|]. split; [lia|]. intros _. split; assumption.
Qed.

(** X11. The target is fixed for the whole invocation: any two remote
    operations of one invocation carry the same request header (client
    set, configuration, namespace, pod and container), also when the
    container was defaulted by [Validate]. *)
Theorem RunE_single_target
    (f : Flags) (args : list string) (t new : Trace)
    (e1 e2 : Event) (k1 k2 : kube_KubeRequest) :
  (RunE env f args t).2 = t ++ new ->
  In e1 new -> target_of e1 = Some k1 ->
  In e2 new -> target_of e2 = Some k2 ->
  k1 = k2.
Proof.
  intros Hnew Hin1 Hk1 Hin2 Hk2.
  destruct (RunE_stages f args t) as [(cnew & Ht & Hl)|(Hc & Hv & cnew & rnew & Ht & Hl & Hr)];
    rewrite Ht in Hnew; apply app_inv_head in Hnew; subst new;
    destruct (local_calls cnew Hl) as (_ & _ & Hnone).
  - rewrite (Hnone e1 Hin1) in Hk1. discriminate.
  - destruct (Run_remote_calls
                (Validate env (Complete env args (bindFlags f) t).1.1
                              (Complete env args (bindFlags f) t).2).1.1
                (Validate env (Complete env args (bindFlags f) t).1.1
                              (Complete env args (bindFlags f) t).2).2)
      as (rnew' & Hr' & Htarget & _).
    rewrite Hr in Hr'. apply app_inv_head in Hr'. subst rnew'.
    apply in_app_iff in Hin1. apply in_app_iff in Hin2.
    destruct Hin1 as [Hin1|Hin1]; [rewrite (Hnone e1 Hin1) in Hk1; discriminate|].
    destruct Hin2 as [Hin2|Hin2]; [rewrite (Hnone e2 Hin2) in Hk2; discriminate|].
    rewrite (Htarget e1 k1 Hin1 Hk1), (Htarget e2 k2 Hin2 Hk2). reflexivity.
Qed.

End Command.

(** ** Instances for the rest of the command *)



(** The sample cluster's loaders return their values. *)
Lemma RunE_never_panics_witness :
  (RunE keepingEnv fileFlags ["web-1"] []).1 <> Panics.
Proof.
  apply (RunE_never_panics keepingEnv fileFlags ["web-1"] []).
  split; intros; cbn; discriminate.
Defined.

(** Fresh options have no current context; [-n ""] has no namespace. *)
Lemma Validate_rejects_before_lookup_witness :
  (Validate keepingEnv NewSniffOptions []).2 = [] /\
  (Validate keepingEnv (webOptions noNamespaceFlags) []).2 = [].
Proof.
  split.
  - destruct (Validate_rejects_before_lookup keepingEnv NewSniffOptions []) as [H _].
    rewrite (H eq_refl). reflexivity.
  - destruct (Validate_rejects_before_lookup keepingEnv (webOptions noNamespaceFlags) [])
      as [_ H].
    rewrite H; [reflexivity | discriminate | reflexivity].
Defined.

(** [-c sidecar] comes back as given. *)
Lemma Validate_changes_container_only_witness :
  (Validate keepingEnv (webOptions sidecarFlags) []).1.1 = webOptions sidecarFlags.
Proof.
  destruct (Validate_changes_container_only keepingEnv (webOptions sidecarFlags) [])
    as (_ & H & _).
  apply H. discriminate.
Defined.

(** The upload's channel breaks with exit status 1. *)
Lemma upload_error_is_fatal_witness :
  let o := webOptions fileFlags in
  Run brokenUploadEnv o []
    = (Some (errors_withMessage (foreign_error "command terminated with exit code 1")
               "upload file command failed, exitCode: 1"),
       [EvExec (probeRequest o tcpdumpRemotePath); EvUpload (uploadRequest o)]).
Proof.
  cbv zeta.
  apply (upload_error_is_fatal brokenUploadEnv (webOptions fileFlags) [] 1
           "command terminated with exit code 1"); reflexivity.
Defined.

(** A first run against the keeping container launches the capture. *)
Lemma capture_launched_iff_witness :
  let o := webOptions fileFlags in
  capture_launched o (Run keepingEnv o []).2.
Proof.
  cbv zeta.
  destruct (capture_launched_iff keepingEnv (webOptions fileFlags) []
              (Run keepingEnv (webOptions fileFlags) []).2 eq_refl) as [[_ H] _].
  apply H. split; vm_compute; reflexivity.
Defined.

(** The upload of [kubectl sniff web-1 -o out.pcap] goes to web-1 in
    namespace default. *)
Lemma RunE_targets_witness :
  let k := kubeRequest (webOptions fileFlags) in
  Namespace k = "default" /\ ["web-1"] !! 0%nat = Some (Pod k).
Proof.
  cbv zeta.
  destruct (RunE_targets keepingEnv fileFlags ["web-1"] []
              (RunE keepingEnv fileFlags ["web-1"] []).2
              (EvUpload (uploadRequest (webOptions fileFlags)))
              (kubeRequest (webOptions fileFlags)))
    as (Hns & Hpod & _).
  - reflexivity.
  - vm_compute. do 5 right. left. reflexivity.
  - reflexivity.
  - split; [exact Hns | exact Hpod].
Defined.

(** That invocation opens three channels, one of them the upload. *)
Lemma RunE_channel_budget_witness :
  (uploads (RunE keepingEnv fileFlags ["web-1"] []).2 <= 1)%nat /\
  (length (channels (RunE keepingEnv fileFlags ["web-1"] []).2) <= 3)%nat.
Proof.
  destruct (RunE_channel_budget keepingEnv fileFlags ["web-1"] []
              (RunE keepingEnv fileFlags ["web-1"] []).2 eq_refl) as (Hu & Hc & _).
  split; [exact Hu | exact Hc].
Defined.

(** Its probe and its capture carry the same request header. *)
Lemma RunE_single_target_witness :
  let o := webOptions fileFlags in
  ExecKubeRequest (probeRequest o tcpdumpRemotePath)
    = ExecKubeRequest (captureRequest o (os_File "out.pcap")).
Proof.
  cbv zeta.
  apply (RunE_single_target keepingEnv fileFlags ["web-1"] []
           (RunE keepingEnv fileFlags ["web-1"] []).2
           (EvExec (probeRequest (webOptions fileFlags) tcpdumpRemotePath))
           (EvExec (captureRequest (webOptions fileFlags) (os_File "out.pcap")))).
  - reflexivity.
  - vm_compute. do 4 right. left. reflexivity.
  - reflexivity.
  - vm_compute. do 7 right. left. reflexivity.
  - reflexivity.
Defined.
